(** * GitHub PR server: a shallow embedding of [main.py] and
    [git_hub_pr_fetcher.py]

    The program is a handful of read operations over the GitHub REST API.
    Every operation is a short sequence of blocking GET calls wrapped in
    [try]/[except].  The embedding keeps that shape:

    - Python values (what [response.json()] yields and what the operations
      return) are the inductive [pyval]; a [dict] is an association list in
      insertion order;
    - an operation is a computation [M A]: it reads the history of events so
      far, and yields either a value or a raised exception together with the
      events it emitted (GET calls with their outcome, lines printed);
    - the remote service, the process environment and the library functions
      the code calls but does not define ([str(e)], [json.dumps],
      [base64.b64decode], [bytes.decode]) are the fields of a [runtime],
      which every operation takes as its first argument. *)

From Stdlib Require Import String Ascii List ZArith Lia Bool DecimalString.
From Stdlib Require Import PrimFloat.
Import ListNotations.

Local Open Scope Z_scope.
Local Open Scope list_scope.
Local Set Warnings "-register-all".

Infix "+++" := String.append (right associativity, at level 60).

(** ** Python values *)

Inductive pyval : Type :=
| VNone
| VBool (b : bool)
| VInt (n : Z)
| VFloat (f : float)
| VStr (s : string)
| VList (l : list pyval)
| VDict (d : list (string * pyval)).

Definition dict := list (string * pyval).

(** [bool(v)] *)
Definition truthy (v : pyval) : bool :=
  match v with
  | VNone => false
  | VBool b => b
  | VInt n => negb (n =? 0)
  | VFloat f => negb (PrimFloat.eqb f 0%float)
  | VStr s => negb (String.eqb s EmptyString)
  | VList l => match l with [] => false | _ :: _ => true end
  | VDict d => match d with [] => false | _ :: _ => true end
  end.

(** Lookup of a key in a dict. *)
Fixpoint dict_lookup (k : string) (d : dict) : option pyval :=
  match d with
  | [] => None
  | (k', v) :: rest => if String.eqb k k' then Some v else dict_lookup k rest
  end.

(** [d.get(k, default)]; [d.get(k)] is [dict_get k d VNone]. *)
Definition dict_get (k : string) (d : dict) (default : pyval) : pyval :=
  match dict_lookup k d with
  | Some v => v
  | None => default
  end.

(** [v == s] for a string literal [s]. *)
Definition eq_str (v : pyval) (s : string) : bool :=
  match v with
  | VStr s' => String.eqb s' s
  | _ => false
  end.

(** [str(n)] for an integer. *)
Definition str_int (n : Z) : string := NilZero.string_of_int (Z.to_int n).

(** ** Requests, responses, exceptions, events *)

Inductive client : Type := Httpx | Requests | RequestsSession.

(** The [verify=] argument of a GET call. *)
Inductive verify_arg : Type :=
| VerifyDefault
| VerifyFalse
| VerifyBundle (path : string).

Record request : Type := mkRequest {
  rq_client : client;
  rq_url : string;
  rq_headers : list (string * string);
  rq_params : list (string * pyval);
  rq_verify : verify_arg;
  rq_timeout : option Z
}.

(** [json_body] is what [response.json()] returns; [None] when it raises. *)
Record response : Type := mkResponse {
  status_code : Z;
  text : string;
  json_body : option pyval
}.

Inductive exn : Type :=
| HTTPError (c : client) (r : response)
| JSONDecodeError (c : client) (r : response)
| TransportError (c : client) (msg : string)
| ImportError (module : string)
| KeyError (key : string)
| TypeError (msg : string)
| AttributeError (msg : string)
| IndexError (msg : string)
| DecodeError (msg : string)
| OtherException (msg : string).

(** [isinstance(e, requests.RequestException)] *)
Definition is_RequestException (e : exn) : bool :=
  match e with
  | HTTPError Httpx _ | JSONDecodeError Httpx _ | TransportError Httpx _ => false
  | HTTPError _ _ | JSONDecodeError _ _ | TransportError _ _ => true
  | _ => false
  end.

(** [isinstance(e, ImportError)] *)
Definition is_ImportError (e : exn) : bool :=
  match e with
  | ImportError _ => true
  | _ => false
  end.

(** [isinstance(e, Exception)]: every modelled exception is one. *)
Definition is_Exception (e : exn) : bool := true.

Inductive outcome : Type :=
| Responded (r : response)
| Failed (e : exn).

Inductive event : Type :=
| EvGet (rq : request) (o : outcome)
| EvStdout (line : string)
| EvStderr (line : string).

(** The GET calls of a trace, in order. *)
Fixpoint gets (es : list event) : list (request * outcome) :=
  match es with
  | [] => []
  | EvGet rq o :: rest => (rq, o) :: gets rest
  | _ :: rest => gets rest
  end.

Definition requests_of (es : list event) : list request := map fst (gets es).

(** The lines written to standard output, in order. *)
Fixpoint stdout_of (es : list event) : list string :=
  match es with
  | [] => []
  | EvStdout l :: rest => l :: stdout_of rest
  | _ :: rest => stdout_of rest
  end.

(** ** Computations *)

Inductive result (A : Type) : Type :=
| Return (a : A)
| Raise (e : exn).
Arguments Return {A} a.
Arguments Raise {A} e.

(** A computation reads the history and yields its result and the events it
    emitted. *)
Definition M (A : Type) : Type := list event -> result A * list event.

Definition ret {A} (a : A) : M A := fun _ => (Return a, []).

Definition raise {A} (e : exn) : M A := fun _ => (Raise e, []).

Definition lift {A} (r : result A) : M A := fun _ => (r, []).

Definition bind {A B} (m : M A) (f : A -> M B) : M B :=
  fun h =>
    match m h with
    | (Return a, es) => let '(r, es') := f a (h ++ es) in (r, es ++ es')
    | (Raise e, es) => (Raise e, es)
    end.

(** [try: m  except <class> as e: handler e] *)
Definition try_except {A} (m : M A) (handles : exn -> bool) (handler : exn -> M A) : M A :=
  fun h =>
    match m h with
    | (Return a, es) => (Return a, es)
    | (Raise e, es) =>
        if handles e
        then let '(r, es') := handler e (h ++ es) in (r, es ++ es')
        else (Raise e, es)
    end.

Definition emit (ev : event) : M unit := fun _ => (Return tt, [ev]).

Notation "x <- m ;; k" := (bind m (fun x => k))
  (at level 61, m at next level, right associativity).
Notation "m ;;; k" := (bind m (fun _ => k))
  (at level 61, right associativity).

(** ** Subscripts and iteration *)

(** [v[k]] for a string key. *)
Definition getitem (v : pyval) (k : string) : result pyval :=
  match v with
  | VDict d =>
      match dict_lookup k d with
      | Some x => Return x
      | None => Raise (KeyError k)
      end
  | VList _ => Raise (TypeError "list indices must be integers or slices, not str")
  | VStr _ => Raise (TypeError "string indices must be integers, not 'str'")
  | _ => Raise (TypeError "object is not subscriptable")
  end.

(** [l[i]] on a list: a negative index counts from the end. *)
Definition list_index (l : list pyval) (i : Z) : result pyval :=
  let n := Z.of_nat (length l) in
  let j := if i <? 0 then i + n else i in
  if (j <? 0) || (n <=? j)
  then Raise (IndexError "list index out of range")
  else match nth_error l (Z.to_nat j) with
       | Some x => Return x
       | None => Raise (IndexError "list index out of range")
       end.

(** [v[i]] for an integer index. *)
Definition getitem_int (v : pyval) (i : Z) : result pyval :=
  match v with
  | VList l => list_index l i
  | VDict _ => Raise (KeyError (str_int i))
  | VStr s =>
      match list_index (map (fun c => VStr (String c EmptyString)) (list_ascii_of_string s)) i with
      | Return x => Return x
      | Raise _ => Raise (IndexError "string index out of range")
      end
  | _ => Raise (TypeError "object is not subscriptable")
  end.

(** The items [for x in v] visits. *)
Definition py_iter (v : pyval) : result (list pyval) :=
  match v with
  | VList l => Return l
  | VDict d => Return (map (fun kv => VStr (fst kv)) d)
  | VStr s => Return (map (fun c => VStr (String c EmptyString)) (list_ascii_of_string s))
  | _ => Raise (TypeError "object is not iterable")
  end.

(** Bind on plain results, for code that has no effect but may raise. *)
Definition rbind {A B} (r : result A) (f : A -> result B) : result B :=
  match r with
  | Return a => f a
  | Raise e => Raise e
  end.

(** [[f x for x in l]], stopping at the first exception. *)
Fixpoint map_result {A B} (f : A -> result B) (l : list A) : result (list B) :=
  match l with
  | [] => Return []
  | x :: rest =>
      rbind (f x) (fun y => rbind (map_result f rest) (fun ys => Return (y :: ys)))
  end.

(** ** What the code takes from its runtime

    [remote h rq] is the outcome of the GET call [rq] issued after the events
    [h]: the remote service may answer the same request differently as the
    history grows.  The other fields are the library functions and the
    process environment the code reads. *)

Record runtime : Type := mkRuntime {
  remote : list event -> request -> outcome;
  str_exn : exn -> string;                    (* str(e) *)
  py_repr : pyval -> string;                  (* str(v) of a float, list or dict *)
  json_dumps : pyval -> string;               (* json.dumps(v, indent=2) *)
  b64decode : string -> option string;        (* base64.b64decode; None when it raises *)
  decode_utf8 : string -> option string;      (* bytes.decode('utf-8'); None when it raises *)
  getenv_GITHUB_TOKEN : option string;        (* os.getenv("GITHUB_TOKEN") *)
  certifi_where : option string               (* certifi.where(); None when certifi is not installed *)
}.

Section Http.
Variable rt : runtime.

(** [requests.get], [httpx.get], [session.get] *)
Definition http_get (rq : request) : M response :=
  fun h =>
    let o := remote rt h rq in
    (match o with
     | Responded r => Return r
     | Failed e => Raise e
     end, [EvGet rq o]).

(** [response.raise_for_status()]: requests raises on 4xx and 5xx, httpx on
    everything but 2xx. *)
Definition raise_for_status (c : client) (r : response) : M unit :=
  let bad :=
    match c with
    | Httpx => negb ((200 <=? status_code r) && (status_code r <=? 299))
    | _ => (400 <=? status_code r) && (status_code r <? 600)
    end in
  if bad then raise (HTTPError c r) else ret tt.

(** [response.json()] *)
Definition response_json (c : client) (r : response) : M pyval :=
  match json_body r with
  | Some v => ret v
  | None => raise (JSONDecodeError c r)
  end.

(** What an f-string or [str()] makes of a value. *)
Definition fmt (v : pyval) : string :=
  match v with
  | VNone => "None"
  | VBool true => "True"
  | VBool false => "False"
  | VInt n => str_int n
  | VStr s => s
  | _ => py_repr rt v
  end.

Definition print (line : string) : M unit := emit (EvStdout line).

Definition print_stderr (line : string) : M unit := emit (EvStderr line).
End Http.

(** ** [git_hub_pr_fetcher.py] *)

Module GitHubPRFetcher.

(** The attributes [__init__] sets. *)
Record t : Type := mkFetcher {
  base_url : string;
  headers : list (string * string)
}.

(** A bound method of the strategy list: its [__name__] and its call. *)
Record strategy : Type := mkStrategy {
  strategy_name : string;
  strategy_call : string -> M dict
}.

(** One pass of the loop body either returns from the function or falls
    through with a new [last_error]. *)
Inductive loop_step : Type :=
| Done (result : dict)
| Next (last_error : pyval).

(** [__init__(self, token)]; [if token:] skips [None] and the empty string.
    [main.py] always passes the token it read from the environment, so the
    default value of the parameter is never used. *)
Definition __init__ (token : option string) : t :=
  let base := [("Accept", "application/vnd.github.v3+json");
               ("User-Agent", "GitHub-PR-Fetcher/1.0")]%string in
  {| base_url := "https://api.github.com";
     headers :=
       match token with
       | Some tok =>
           if negb (String.eqb tok EmptyString)
           then base ++ [("Authorization", "token " +++ tok)]%string
           else base
       | None => base
       end |}.

(** The session [_create_session_with_ssl_config] builds: its headers are
    updated with [self.headers]; the SSL context it creates is attached to
    nothing. *)
Definition _create_session_with_ssl_config (self : t) : M (list (string * string)) :=
  ret (headers self).

Section Methods.
Variable rt : runtime.

Definition _fetch_with_default_ssl (self : t) (url : string) : M dict :=
  try_except
    (response <- http_get rt (mkRequest Requests url (headers self) [] VerifyDefault (Some 30)) ;;
     raise_for_status Requests response ;;;
     data <- response_json Requests response ;;
     ret [("success", VBool true); ("data", data); ("method", VStr "default_ssl")]%string)
    is_Exception
    (fun e =>
       ret [("success", VBool false);
            ("error", VStr ("Default SSL failed: " +++ str_exn rt e))]%string).

Definition _fetch_with_disabled_ssl_verification (self : t) (url : string) : M dict :=
  try_except
    (response <- http_get rt (mkRequest Requests url (headers self) [] VerifyFalse (Some 30)) ;;
     raise_for_status Requests response ;;;
     data <- response_json Requests response ;;
     ret [("success", VBool true); ("data", data);
          ("method", VStr "disabled_ssl_verification")]%string)
    is_Exception
    (fun e =>
       ret [("success", VBool false);
            ("error", VStr ("Disabled SSL verification failed: " +++ str_exn rt e))]%string).

Definition _fetch_with_custom_ssl_context (self : t) (url : string) : M dict :=
  try_except
    (session <- _create_session_with_ssl_config self ;;
     response <- http_get rt (mkRequest RequestsSession url session [] VerifyFalse (Some 30)) ;;
     raise_for_status RequestsSession response ;;;
     data <- response_json RequestsSession response ;;
     ret [("success", VBool true); ("data", data);
          ("method", VStr "custom_ssl_context")]%string)
    is_Exception
    (fun e =>
       ret [("success", VBool false);
            ("error", VStr ("Custom SSL context failed: " +++ str_exn rt e))]%string).

(** [import certifi] raises [ImportError] when the package is missing;
    the [except ImportError] clause comes first. *)
Definition _fetch_with_system_ca_bundle (self : t) (url : string) : M dict :=
  try_except
    (bundle <- match certifi_where rt with
               | Some path => ret path
               | None => raise (ImportError "certifi")
               end ;;
     response <- http_get rt (mkRequest Requests url (headers self) [] (VerifyBundle bundle) (Some 30)) ;;
     raise_for_status Requests response ;;;
     data <- response_json Requests response ;;
     ret [("success", VBool true); ("data", data);
          ("method", VStr "system_ca_bundle")]%string)
    is_Exception
    (fun e =>
       if is_ImportError e
       then ret [("success", VBool false);
                 ("error", VStr "certifi package not available")]%string
       else ret [("success", VBool false);
                 ("error", VStr ("System CA bundle failed: " +++ str_exn rt e))]%string).

(** The list [strategies] of [fetch_pr_details]. *)
Definition strategies (self : t) : list strategy :=
  [ mkStrategy "_fetch_with_default_ssl" (_fetch_with_default_ssl self);
    mkStrategy "_fetch_with_disabled_ssl_verification" (_fetch_with_disabled_ssl_verification self);
    mkStrategy "_fetch_with_custom_ssl_context" (_fetch_with_custom_ssl_context self);
    mkStrategy "_fetch_with_system_ca_bundle" (_fetch_with_system_ca_bundle self) ].

Definition attempt_line (i : nat) (s : strategy) : string :=
  "Attempting strategy " +++ str_int (Z.of_nat i) +++ ": " +++ strategy_name s.

Definition failed_line (i : nat) (e : exn) : string :=
  "Strategy " +++ str_int (Z.of_nat i) +++ " failed: " +++ str_exn rt e.

(** The body of [for i, strategy in enumerate(strategies, 1)]. *)
Definition attempt (i : nat) (s : strategy) (url : string) : M loop_step :=
  try_except
    (print (attempt_line i s) ;;;
     result <- strategy_call s url ;;
     if truthy (dict_get "success" result VNone)
     then ret (Done result)
     else ret (Next (dict_get "error" result (VStr "Unknown error"))))
    is_Exception
    (fun e =>
       print (failed_line i e) ;;;
       ret (Next (VStr (str_exn rt e)))).

(** What [fetch_pr_details] returns when the loop runs out. *)
Definition all_failed (last_error : pyval) : dict :=
  [("success", VBool false);
   ("error", VStr ("All SSL strategies failed. Last error: " +++ fmt rt last_error));
   ("data", VNone)]%string.

(** The loop of [fetch_pr_details] from index [i] on. *)
Fixpoint run_strategies (i : nat) (ss : list strategy) (url : string)
         (last_error : pyval) : M dict :=
  match ss with
  | [] => ret (all_failed last_error)
  | s :: rest =>
      step <- attempt i s url ;;
      match step with
      | Done result => ret result
      | Next e => run_strategies (S i) rest url e
      end
  end.

Definition fetch_pr_details (self : t) (owner repo : string) (pr_number : pyval) : M dict :=
  let url := base_url self +++ "/repos/" +++ owner +++ "/" +++ repo +++ "/pulls/"
             +++ fmt rt pr_number in
  run_strategies 1 (strategies self) url VNone.

(** The dict the listing builds for one item of the response. *)
Definition summary (pr : pyval) : result pyval :=
  rbind (getitem pr "number") (fun number =>
  rbind (getitem pr "title") (fun title =>
  rbind (getitem pr "state") (fun state =>
  rbind (rbind (getitem pr "user") (fun user => getitem user "login")) (fun author =>
  rbind (getitem pr "html_url") (fun url =>
  rbind (getitem pr "created_at") (fun created_at =>
  rbind (getitem pr "updated_at") (fun updated_at =>
  Return (VDict [("number", number); ("title", title); ("state", state);
                 ("author", author); ("url", url);
                 ("created_at", created_at); ("updated_at", updated_at)]%string)))))))).

Definition list_pull_requests (self : t) (owner repo : string)
           (state : string) (per_page : Z) : M dict :=
  let url := base_url self +++ "/repos/" +++ owner +++ "/" +++ repo +++ "/pulls" in
  let params := [("state", VStr state); ("per_page", VInt per_page);
                 ("sort", VStr "updated"); ("direction", VStr "desc")]%string in
  try_except
    (response <- http_get rt (mkRequest Requests url (headers self) params VerifyFalse (Some 30)) ;;
     raise_for_status Requests response ;;;
     prs <- response_json Requests response ;;
     items <- lift (py_iter prs) ;;
     data <- lift (map_result summary items) ;;
     ret [("success", VBool true); ("data", VList data)]%string)
    is_Exception
    (fun e =>
       ret [("success", VBool false);
            ("error", VStr ("Failed to list pull requests: " +++ str_exn rt e));
            ("data", VNone)]%string).
End Methods.
End GitHubPRFetcher.


(** ** [main.py]: the tools *)

Section Tools.
Variable rt : runtime.

(** The dict [list_pull_requests] appends for one item of the response. *)
Definition pr_entry (pr : pyval) : result pyval :=
  rbind (getitem pr "number") (fun number =>
  rbind (getitem pr "title") (fun title =>
  rbind (getitem pr "state") (fun state =>
  rbind (rbind (getitem pr "user") (fun user => getitem user "login")) (fun author =>
  rbind (getitem pr "html_url") (fun url =>
  Return (VDict [("number", number); ("title", title); ("state", state);
                 ("author", author); ("url", url)]%string)))))).

Definition list_pull_requests (repo owner : string) : M string :=
  try_except
    (let url := "https://api.github.com/repos/" +++ owner +++ "/" +++ repo +++ "/pulls" in
     response <- http_get rt (mkRequest Httpx url [] [] VerifyDefault None) ;;
     raise_for_status Httpx response ;;;
     prs <- response_json Httpx response ;;
     items <- lift (py_iter prs) ;;
     result <- lift (map_result pr_entry items) ;;
     ret (json_dumps rt (VList result)))
    is_Exception
    (fun e =>
       print_stderr ("There was an error in the code: " +++ str_exn rt e) ;;;
       ret ("Error: " +++ str_exn rt e)).

(** The declared default of [pr_number]. *)
Definition default_pr_number : Z := 0.

Definition get_specified_pr (owner repo : string) (pr_number : Z) : M dict :=
  let token := getenv_GITHUB_TOKEN rt in
  let fetcher := GitHubPRFetcher.__init__ token in
  pr_list <- GitHubPRFetcher.list_pull_requests rt fetcher owner repo "open" 30 ;;
  success <- lift (getitem (VDict pr_list) "success") ;;
  stop <- (if negb (truthy success)
           then ret true
           else data <- lift (getitem (VDict pr_list) "data") ;;
                ret (negb (truthy data))) ;;
  if stop : bool
  then ret pr_list
  else
    data <- lift (getitem (VDict pr_list) "data") ;;
    entry <- lift (getitem_int data (pr_number - 1)) ;;
    latest_pr_number <- lift (getitem entry "number") ;;
    pr_details <- GitHubPRFetcher.fetch_pr_details rt fetcher owner repo latest_pr_number ;;
    ok <- lift (getitem (VDict pr_details) "success") ;;
    if truthy ok
    then
      latest_pr <- lift (getitem (VDict pr_details) "data") ;;
      method_used <- lift (getitem (VDict pr_details) "method") ;;
      all_prs <- lift (getitem (VDict pr_list) "data") ;;
      ret [("success", VBool true); ("latest_pr", latest_pr);
           ("method_used", method_used); ("all_prs", all_prs)]%string
    else ret pr_details.

Definition get_repository_issues (owner repo : string) (state : string) (per_page : Z)
  : M pyval :=
  let url := "https://api.github.com/repos/" +++ owner +++ "/" +++ repo +++ "/issues" in
  let params := [("state", VStr state); ("per_page", VInt (Z.min per_page 100))]%string in
  try_except
    (response <- http_get rt (mkRequest Requests url [] params VerifyDefault (Some 10)) ;;
     raise_for_status Requests response ;;;
     response_json Requests response)
    is_RequestException
    (fun e => ret (VDict [("error", VStr ("Failed to fetch issues: " +++ str_exn rt e))]%string)).

Definition filenames : list string := ["README.md"; "README.rst"; "README.txt"; "README"]%string.

Definition readme_request (owner repo branch filename : string) : request :=
  mkRequest Requests
    ("https://raw.githubusercontent.com/" +++ owner +++ "/" +++ repo +++ "/" +++ branch
     +++ "/" +++ filename)
    [] [] VerifyDefault (Some 10).

(** The [for filename in filenames] loop; running off its end returns [None]. *)
Fixpoint readme_loop (owner repo branch : string) (names : list string) : M (option string) :=
  match names with
  | [] => ret None
  | filename :: rest =>
      found <- try_except
                 (response <- http_get rt (readme_request owner repo branch filename) ;;
                  if status_code response =? 200
                  then ret (Some (text response))
                  else ret None)
                 is_RequestException
                 (fun _ => ret None) ;;
      match found with
      | Some content => ret (Some content)
      | None => readme_loop owner repo branch rest
      end
  end.

Definition get_repository_readme (owner repo branch : string) : M (option string) :=
  readme_loop owner repo branch filenames.

Definition file_request (owner repo file_path branch : string) : request :=
  mkRequest Requests
    ("https://api.github.com/repos/" +++ owner +++ "/" +++ repo +++ "/contents/" +++ file_path)
    [] [("ref", VStr branch)]%string VerifyDefault (Some 10).

(** [base64.b64decode(v).decode('utf-8')] *)
Definition b64decode_utf8 (v : pyval) : result string :=
  match v with
  | VStr s =>
      match b64decode rt s with
      | Some raw =>
          match decode_utf8 rt raw with
          | Some content => Return content
          | None => Raise (DecodeError "'utf-8' codec can't decode")
          end
      | None => Raise (DecodeError "Incorrect padding")
      end
  | _ => Raise (TypeError "argument should be a bytes-like object or ASCII string")
  end.

Definition get_repository_file (owner repo file_path branch : string) : M (option string) :=
  try_except
    (response <- http_get rt (file_request owner repo file_path branch) ;;
     if status_code response =? 200
     then
       data <- response_json Requests response ;;
       encoding <- match data with
                   | VDict d => ret (dict_get "encoding" d VNone)
                   | _ => raise (AttributeError "object has no attribute 'get'")
                   end ;;
       if eq_str encoding "base64"
       then
         content <- lift (getitem data "content") ;;
         decoded <- lift (b64decode_utf8 content) ;;
         ret (Some decoded)
       else ret None
     else ret None)
    is_Exception
    (fun _ => ret None).

End Tools.

(** ** A concrete runtime

    A small remote service used to run the operations on concrete inputs:
    the repository [octocat/Hello-World] has two open pull requests, its
    certificate is rejected by default verification, it has a [README.rst]
    but no [README.md]; [octocat/Empty] has no pull request; every call for
    another repository fails at the transport level. *)

Module Scenario.

Definition pull (number : Z) (title login : string) : pyval :=
  VDict [("number", VInt number); ("title", VStr title); ("state", VStr "open");
         ("user", VDict [("login", VStr login); ("id", VInt 1)]);
         ("html_url", VStr ("https://github.com/octocat/Hello-World/pull/" +++ str_int number));
         ("created_at", VStr "2024-01-01T00:00:00Z");
         ("updated_at", VStr "2024-01-02T00:00:00Z");
         ("draft", VBool false)]%string.

Definition listing : list pyval := [pull 12 "Add parser" "alice"; pull 7 "Fix typo" "bob"]%string.

Definition detail (number : Z) : pyval :=
  VDict [("number", VInt number); ("mergeable", VBool true); ("commits", VInt 3)]%string.

Definition ok (body : string) (json : option pyval) : outcome :=
  Responded (mkResponse 200 body json).

Definition not_found : outcome :=
  Responded (mkResponse 404 "Not Found" (Some (VDict [("message", VStr "Not Found")]%string))).

Definition answer (rq : request) : outcome :=
  let url := rq_url rq in
  if String.eqb url "https://api.github.com/repos/octocat/Hello-World/pulls" then
    ok "[...]" (Some (VList listing))
  else if String.eqb url "https://api.github.com/repos/octocat/Empty/pulls" then
    ok "[]" (Some (VList []))
  else if String.eqb url "https://api.github.com/repos/octocat/Hello-World/pulls/12" then
    match rq_verify rq with
    | VerifyDefault => Failed (TransportError (rq_client rq) "certificate verify failed")
    | _ => ok "{...}" (Some (detail 12))
    end
  else if String.eqb url "https://api.github.com/repos/octocat/Hello-World/pulls/7" then
    match rq_verify rq with
    | VerifyDefault => Failed (TransportError (rq_client rq) "certificate verify failed")
    | _ => ok "{...}" (Some (detail 7))
    end
  else if String.eqb url "https://raw.githubusercontent.com/octocat/Hello-World/main/README.md" then
    not_found
  else if String.eqb url "https://raw.githubusercontent.com/octocat/Hello-World/main/README.rst" then
    ok "Hello World!" None
  else if String.eqb url "https://api.github.com/repos/octocat/Hello-World/contents/README.rst" then
    ok "{...}" (Some (VDict [("encoding", VStr "base64"); ("content", VStr "SGVsbG8=")]%string))
  else if String.eqb url "https://api.github.com/repos/octocat/Hello-World/contents/docs" then
    ok "[...]" (Some (VList [VDict [("name", VStr "index.md")]%string]))
  else Failed (TransportError (rq_client rq) "connection refused").

Definition show_exn (e : exn) : string :=
  match e with
  | HTTPError _ r => str_int (status_code r) +++ " Error"
  | JSONDecodeError _ _ => "Expecting value"
  | KeyError k => "'" +++ k +++ "'"
  | ImportError m => "No module named '" +++ m +++ "'"
  | TransportError _ msg | TypeError msg | AttributeError msg | IndexError msg
  | DecodeError msg | OtherException msg => msg
  end.

Definition dq : string := String (ascii_of_nat 34) EmptyString.

(** A compact rendering, enough to tell values apart. *)
Fixpoint render (v : pyval) : string :=
  match v with
  | VNone => "null"
  | VBool true => "true"
  | VBool false => "false"
  | VInt n => str_int n
  | VFloat _ => "<float>"
  | VStr s => dq +++ s +++ dq
  | VList l =>
      "[" +++ (fix items (l : list pyval) : string :=
                 match l with
                 | [] => EmptyString
                 | [x] => render x
                 | x :: rest => render x +++ ", " +++ items rest
                 end) l +++ "]"
  | VDict d =>
      "{" +++ (fix items (d : list (string * pyval)) : string :=
                 match d with
                 | [] => EmptyString
                 | [(k, x)] => dq +++ k +++ dq +++ ": " +++ render x
                 | (k, x) :: rest => dq +++ k +++ dq +++ ": " +++ render x +++ ", " +++ items rest
                 end) d +++ "}"
  end.

Definition unbase64 (s : string) : option string :=
  if String.eqb s "SGVsbG8=" then Some "Hello"%string else None.

Definition rt : runtime :=
  {| remote := fun _ rq => answer rq;
     str_exn := show_exn;
     py_repr := render;
     json_dumps := render;
     b64decode := unbase64;
     decode_utf8 := fun raw => Some raw;
     getenv_GITHUB_TOKEN := None;
     certifi_where := Some "/etc/ssl/cert.pem"%string |}.

(** The same service seen from a process where certifi is not installed. *)
Definition rt_no_certifi : runtime :=
  {| remote := fun _ rq => answer rq;
     str_exn := show_exn;
     py_repr := render;
     json_dumps := render;
     b64decode := unbase64;
     decode_utf8 := fun raw => Some raw;
     getenv_GITHUB_TOKEN := Some "t0ken"%string;
     certifi_where := None |}.

End Scenario.

(** * Vocabulary of the properties *)

(** The [timeout=] arguments of the GET calls of a trace, in order. *)
Definition timeouts_of (es : list event) : list (option Z) :=
  map rq_timeout (requests_of es).

(** The result of [get; raise_for_status; json] as a function of the outcome
    of the GET call. *)
Definition fetched (c : client) (o : outcome) : result pyval :=
  match o with
  | Responded r =>
      if match c with
         | Httpx => negb ((200 <=? status_code r) && (status_code r <=? 299))
         | _ => (400 <=? status_code r) && (status_code r <? 600)
         end
      then Raise (HTTPError c r)
      else match json_body r with
           | Some v => Return v
           | None => Raise (JSONDecodeError c r)
           end
  | Failed e => Raise e
  end.

(** The GET call each strategy issues. *)
Definition default_request (self : GitHubPRFetcher.t) (url : string) : request :=
  mkRequest Requests url (GitHubPRFetcher.headers self) [] VerifyDefault (Some 30).

Definition disabled_request (self : GitHubPRFetcher.t) (url : string) : request :=
  mkRequest Requests url (GitHubPRFetcher.headers self) [] VerifyFalse (Some 30).

Definition custom_request (self : GitHubPRFetcher.t) (url : string) : request :=
  mkRequest RequestsSession url (GitHubPRFetcher.headers self) [] VerifyFalse (Some 30).

Definition bundle_request (self : GitHubPRFetcher.t) (url bundle : string) : request :=
  mkRequest Requests url (GitHubPRFetcher.headers self) [] (VerifyBundle bundle) (Some 30).

(** The dict a strategy returns: the payload tagged with the strategy's
    method name, or the exception text behind the strategy's prefix. *)
Definition strategy_result (rt : runtime) (method prefix : string) (r : result pyval) : dict :=
  match r with
  | Return data => [("success", VBool true); ("data", data); ("method", VStr method)]%string
  | Raise e => [("success", VBool false); ("error", VStr (prefix +++ str_exn rt e))]%string
  end.

(** The URL [fetch_pr_details] hands to every strategy. *)
Definition details_url (rt : runtime) (self : GitHubPRFetcher.t) (owner repo : string)
           (pr_number : pyval) : string :=
  GitHubPRFetcher.base_url self +++ "/repos/" +++ owner +++ "/" +++ repo +++ "/pulls/"
  +++ fmt rt pr_number.

(** [fails_in_turn rt i ss url h last es last']: started after the history [h]
    with [last_error = last], the strategies [ss], numbered from [i], are each
    called once, in order, and each one fails, by returning a dict whose
    ['success'] is falsy or by raising; together with the coordinator's own
    printing they emit [es], and [last'] is the [last_error] left behind. *)
Inductive fails_in_turn (rt : runtime) :
  nat -> list GitHubPRFetcher.strategy -> string -> list event -> pyval ->
  list event -> pyval -> Prop :=
| fails_none i url h last :
    fails_in_turn rt i [] url h last [] last
| fails_returning i s rest url h last d es es' last' :
    GitHubPRFetcher.strategy_call s url (h ++ [EvStdout (GitHubPRFetcher.attempt_line i s)])
      = (Return d, es) ->
    truthy (dict_get "success" d VNone) = false ->
    fails_in_turn rt (S i) rest url
      (h ++ EvStdout (GitHubPRFetcher.attempt_line i s) :: es)
      (dict_get "error" d (VStr "Unknown error")) es' last' ->
    fails_in_turn rt i (s :: rest) url h last
      ((EvStdout (GitHubPRFetcher.attempt_line i s) :: es) ++ es') last'
| fails_raising i s rest url h last e es es' last' :
    GitHubPRFetcher.strategy_call s url (h ++ [EvStdout (GitHubPRFetcher.attempt_line i s)])
      = (Raise e, es) ->
    fails_in_turn rt (S i) rest url
      (h ++ EvStdout (GitHubPRFetcher.attempt_line i s)
         :: es ++ [EvStdout (GitHubPRFetcher.failed_line rt i e)])
      (VStr (str_exn rt e)) es' last' ->
    fails_in_turn rt i (s :: rest) url h last
      ((EvStdout (GitHubPRFetcher.attempt_line i s)
          :: es ++ [EvStdout (GitHubPRFetcher.failed_line rt i e)]) ++ es') last'.

(** The error text a failing strategy leaves in [last_error]; [None] for a
    strategy that succeeded. *)
Definition failure_text (rt : runtime) (o : result dict) : option string :=
  match o with
  | Return d =>
      if truthy (dict_get "success" d VNone)
      then None
      else Some (fmt rt (dict_get "error" d (VStr "Unknown error")))
  | Raise e => Some (str_exn rt e)
  end.

(** The lines ["Attempting strategy i: name"] for the strategies [ss],
    numbered from [i]. *)
Fixpoint attempt_lines (i : nat) (ss : list GitHubPRFetcher.strategy) : list string :=
  match ss with
  | [] => []
  | s :: rest => GitHubPRFetcher.attempt_line i s :: attempt_lines (S i) rest
  end.

(** A strategy that always returns a dict and issues exactly one GET call,
    printing nothing. *)
Definition one_get (s : GitHubPRFetcher.strategy) : Prop :=
  forall url h, exists d rq o,
    GitHubPRFetcher.strategy_call s url h = (Return d, [EvGet rq o]).

(** The values of ['method'] in a strategy's successful result. *)
Definition method_names : list string :=
  ["default_ssl"; "disabled_ssl_verification"; "custom_ssl_context"; "system_ca_bundle"]%string.

(** The GET call of [GitHubPRFetcher.list_pull_requests]. *)
Definition listing_request (self : GitHubPRFetcher.t) (owner repo state : string)
           (per_page : Z) : request :=
  mkRequest Requests
    (GitHubPRFetcher.base_url self +++ "/repos/" +++ owner +++ "/" +++ repo +++ "/pulls")
    (GitHubPRFetcher.headers self)
    [("state", VStr state); ("per_page", VInt per_page);
     ("sort", VStr "updated"); ("direction", VStr "desc")]%string
    VerifyFalse (Some 30).

(** The GET call of the tool [list_pull_requests]: [httpx.get(url)]. *)
Definition pulls_request (repo owner : string) : request :=
  mkRequest Httpx ("https://api.github.com/repos/" +++ owner +++ "/" +++ repo +++ "/pulls")
    [] [] VerifyDefault None.

(** The GET call of [get_repository_issues]. *)
Definition issues_request (owner repo state : string) (per_page : Z) : request :=
  mkRequest Requests ("https://api.github.com/repos/" +++ owner +++ "/" +++ repo +++ "/issues")
    [] [("state", VStr state); ("per_page", VInt (Z.min per_page 100))]%string
    VerifyDefault (Some 10).

(** The items a listing is made of, from the outcome of its GET call: the
    projection [f] of every item of the JSON body. *)
Definition projected (c : client) (f : pyval -> result pyval) (o : outcome)
  : result (list pyval) :=
  rbind (fetched c o) (fun prs => rbind (py_iter prs) (map_result f)).

(** [field k v]: the value under key [k] of the JSON object [v]. *)
Definition field (k : string) (v : pyval) : pyval :=
  match v with
  | VDict d => dict_get k d VNone
  | _ => VNone
  end.

(** The five fields of a pull request that the tool reports. *)
Definition five_fields (pr : pyval) : pyval :=
  VDict [("number", field "number" pr); ("title", field "title" pr);
         ("state", field "state" pr); ("author", field "login" (field "user" pr));
         ("url", field "html_url" pr)]%string.

(** A JSON object with the fields the listings read: [number], [title],
    [state], [html_url], and a [user] object with a [login]. *)
Definition is_pull_request (pr : pyval) : bool :=
  match pr with
  | VDict d =>
      match dict_lookup "number" d, dict_lookup "title" d, dict_lookup "state" d,
            dict_lookup "user" d, dict_lookup "html_url" d with
      | Some _, Some _, Some _, Some (VDict user), Some _ =>
          match dict_lookup "login" user with
          | Some _ => true
          | None => false
          end
      | _, _, _, _, _ => false
      end
  | _ => false
  end.

(** A fetch [get_repository_readme] passes over: an answer whose status is
    not 200, or a [requests.RequestException]. *)
Definition readme_miss (o : outcome) : bool :=
  match o with
  | Responded r => negb (status_code r =? 200)
  | Failed e => is_RequestException e
  end.

(** [misses_in_turn rt owner repo branch names h es]: after the history [h],
    the filenames [names] are fetched once each, in order, and each fetch is
    a miss; [es] are the GET calls made. *)
Inductive misses_in_turn (rt : runtime) (owner repo branch : string) :
  list string -> list event -> list event -> Prop :=
| misses_none h : misses_in_turn rt owner repo branch [] h []
| misses_next filename rest h es :
    readme_miss (remote rt h (readme_request owner repo branch filename)) = true ->
    misses_in_turn rt owner repo branch rest
      (h ++ [EvGet (readme_request owner repo branch filename)
               (remote rt h (readme_request owner repo branch filename))]) es ->
    misses_in_turn rt owner repo branch (filename :: rest) h
      (EvGet (readme_request owner repo branch filename)
         (remote rt h (readme_request owner repo branch filename)) :: es).

(** The fetcher [get_specified_pr] builds: its token comes from the
    environment. *)
Definition tool_fetcher (rt : runtime) : GitHubPRFetcher.t :=
  GitHubPRFetcher.__init__ (getenv_GITHUB_TOKEN rt).

(** What [get_specified_pr] returns once the details [det] of the selected
    pull request have been fetched: on success the payload, the method that
    succeeded and the full listing; otherwise the failure of the
    coordinator. *)
Definition specified_pr_result (det : dict) (data : list pyval) : dict :=
  if truthy (dict_get "success" det VNone)
  then [("success", VBool true); ("latest_pr", dict_get "data" det VNone);
        ("method_used", dict_get "method" det VNone); ("all_prs", VList data)]%string
  else det.

(** ** Runs on the concrete runtime *)

Module Example.

Definition self : GitHubPRFetcher.t := tool_fetcher Scenario.rt.

Definition url12 : string :=
  details_url Scenario.rt self "octocat" "Hello-World" (VInt 12).

Definition refused : outcome :=
  Failed (TransportError Requests "certificate verify failed").

(** The listing [GitHubPRFetcher.list_pull_requests] builds for
    [octocat/Hello-World]. *)
Definition entry (number : Z) (title login : string) : pyval :=
  VDict [("number", VInt number); ("title", VStr title); ("state", VStr "open");
         ("author", VStr login);
         ("url", VStr ("https://github.com/octocat/Hello-World/pull/" +++ str_int number));
         ("created_at", VStr "2024-01-01T00:00:00Z");
         ("updated_at", VStr "2024-01-02T00:00:00Z")]%string.

Definition data : list pyval := [entry 12 "Add parser" "alice"; entry 7 "Fix typo" "bob"]%string.

Definition listed : event :=
  EvGet (listing_request self "octocat" "Hello-World" "open" 30)
        (Scenario.ok "[...]" (Some (VList Scenario.listing))).

End Example.

(** A mirror in front of the raw-content host: it serves its own copy of
    [README.md] with status 203 (Non-Authoritative Information) and passes
    every other request on. *)
Module Mirror.

Definition copy : response := mkResponse 203 "# Hello World (mirror)" None.

Definition answer (rq : request) : outcome :=
  if String.eqb (rq_url rq)
       "https://raw.githubusercontent.com/octocat/Hello-World/main/README.md"
  then Responded copy
  else Scenario.answer rq.

Definition rt : runtime :=
  {| remote := fun _ rq => answer rq;
     str_exn := Scenario.show_exn;
     py_repr := Scenario.render;
     json_dumps := Scenario.render;
     b64decode := Scenario.unbase64;
     decode_utf8 := fun raw => Some raw;
     getenv_GITHUB_TOKEN := None;
     certifi_where := Some "/etc/ssl/cert.pem"%string |}.

End Mirror.

(** * Properties *)

(** ** Traces *)

Lemma gets_app (es es' : list event) : gets (es ++ es') = gets es ++ gets es'.
Proof.
  induction es as [|ev es IH]; simpl; [reflexivity|].
  destruct ev; simpl; rewrite IH; reflexivity.
Qed.

Lemma requests_of_app (es es' : list event) :
  requests_of (es ++ es') = requests_of es ++ requests_of es'.
Proof. unfold requests_of. rewrite gets_app, map_app. reflexivity. Qed.

Lemma stdout_of_app (es es' : list event) :
  stdout_of (es ++ es') = stdout_of es ++ stdout_of es'.
Proof.
  induction es as [|ev es IH]; simpl; [reflexivity|].
  destruct ev; simpl; rewrite IH; reflexivity.
Qed.

(** ** Running computations *)

(** Unfolds the monadic plumbing of a goal. *)
Ltac run :=
  unfold try_except, bind, http_get, raise_for_status, response_json,
         ret, raise, lift, emit, print, print_stderr in *;
  simpl in *.

(** Case analysis on the outcome of the GET call the goal is waiting for. *)
Ltac on_remote :=
  match goal with
  | |- context [remote ?rt ?h ?rq] =>
      let Ho := fresh "Ho" in
      destruct (remote rt h rq) as [?r|?e] eqn:Ho; simpl
  end.

(** Case analysis on what [raise_for_status] and [response.json()] do. *)
Ltac on_status :=
  match goal with
  | |- context [(400 <=? status_code ?r) && (status_code ?r <? 600)] =>
      destruct ((400 <=? status_code r) && (status_code r <? 600)) eqn:?; simpl
  | |- context [(200 <=? status_code ?r) && (status_code ?r <=? 299)] =>
      destruct ((200 <=? status_code r) && (status_code r <=? 299)) eqn:?; simpl
  | |- context [status_code ?r =? 200] =>
      destruct (status_code r =? 200) eqn:?; simpl
  end.

Ltac on_json :=
  match goal with
  | |- context [json_body ?r] => destruct (json_body r) as [?v|] eqn:?; simpl
  end.

(** ** The four strategies *)

Section Strategies.
Variable rt : runtime.

Lemma _fetch_with_default_ssl_run self url h :
  GitHubPRFetcher._fetch_with_default_ssl rt self url h =
  (Return (strategy_result rt "default_ssl" "Default SSL failed: "
             (fetched Requests (remote rt h (default_request self url)))),
   [EvGet (default_request self url) (remote rt h (default_request self url))]).
Proof.
  unfold GitHubPRFetcher._fetch_with_default_ssl, default_request, fetched. run.
  on_remote; [|reflexivity].
  on_status; [reflexivity|].
  on_json; reflexivity.
Qed.

Lemma _fetch_with_disabled_ssl_verification_run self url h :
  GitHubPRFetcher._fetch_with_disabled_ssl_verification rt self url h =
  (Return (strategy_result rt "disabled_ssl_verification" "Disabled SSL verification failed: "
             (fetched Requests (remote rt h (disabled_request self url)))),
   [EvGet (disabled_request self url) (remote rt h (disabled_request self url))]).
Proof.
  unfold GitHubPRFetcher._fetch_with_disabled_ssl_verification, disabled_request, fetched. run.
  on_remote; [|reflexivity].
  on_status; [reflexivity|].
  on_json; reflexivity.
Qed.

Lemma _fetch_with_custom_ssl_context_run self url h :
  GitHubPRFetcher._fetch_with_custom_ssl_context rt self url h =
  (Return (strategy_result rt "custom_ssl_context" "Custom SSL context failed: "
             (fetched RequestsSession (remote rt h (custom_request self url)))),
   [EvGet (custom_request self url) (remote rt h (custom_request self url))]).
Proof.
  unfold GitHubPRFetcher._fetch_with_custom_ssl_context,
    GitHubPRFetcher._create_session_with_ssl_config, custom_request, fetched. run.
  rewrite app_nil_r.
  on_remote; [|reflexivity].
  on_status; [reflexivity|].
  on_json; reflexivity.
Qed.

Lemma _fetch_with_system_ca_bundle_run self url h :
  GitHubPRFetcher._fetch_with_system_ca_bundle rt self url h =
  match certifi_where rt with
  | Some bundle =>
      (Return
         match fetched Requests (remote rt h (bundle_request self url bundle)) with
         | Raise (ImportError _) =>
             [("success", VBool false); ("error", VStr "certifi package not available")]%string
         | r => strategy_result rt "system_ca_bundle" "System CA bundle failed: " r
         end,
       [EvGet (bundle_request self url bundle) (remote rt h (bundle_request self url bundle))])
  | None =>
      (Return [("success", VBool false); ("error", VStr "certifi package not available")]%string,
       [])
  end.
Proof.
  unfold GitHubPRFetcher._fetch_with_system_ca_bundle, bundle_request, fetched. run.
  destruct (certifi_where rt) as [bundle|]; simpl; [|reflexivity].
  rewrite app_nil_r.
  on_remote.
  - on_status; [reflexivity|].
    on_json; reflexivity.
  - destruct e; reflexivity.
Qed.

End Strategies.

(** ** The coordinator loop *)

Section Coordinator.
Variable rt : runtime.

Import GitHubPRFetcher.

(** One pass of the loop body, by what the strategy does. *)
Lemma attempt_run i s url h :
  attempt rt i s url h =
  match strategy_call s url (h ++ [EvStdout (attempt_line i s)]) with
  | (Return d, es) =>
      (Return (if truthy (dict_get "success" d VNone)
               then Done d
               else Next (dict_get "error" d (VStr "Unknown error"))),
       EvStdout (attempt_line i s) :: es)
  | (Raise e, es) =>
      (Return (Next (VStr (str_exn rt e))),
       EvStdout (attempt_line i s) :: es ++ [EvStdout (failed_line rt i e)])
  end.
Proof.
  unfold attempt. run.
  destruct (strategy_call s url (h ++ [EvStdout (attempt_line i s)])) as [[d|e] es]; simpl.
  - destruct (truthy (dict_get "success" d VNone)); simpl; rewrite ?app_nil_r; reflexivity.
  - rewrite ?app_nil_r. reflexivity.
Qed.

(** The loop never raises: an exception of a strategy is caught in the pass
    that called it. *)
Lemma attempt_returns i s url h :
  exists step es, attempt rt i s url h = (Return step, es).
Proof.
  rewrite attempt_run.
  destruct (strategy_call s url (h ++ [EvStdout (attempt_line i s)])) as [[d|e] es]; eauto.
Qed.

Lemma run_strategies_returns ss : forall i url last h,
  exists d es, run_strategies rt i ss url last h = (Return d, es).
Proof.
  induction ss as [|s rest IH]; intros i url last h; simpl.
  - unfold ret. eauto.
  - destruct (attempt_returns i s url h) as (step & es & Hstep).
    unfold bind. rewrite Hstep.
    destruct step as [d|e].
    + unfold ret. eauto.
    + destruct (IH (S i) url e (h ++ es)) as (d & es' & Hrest).
      rewrite Hrest. eauto.
Qed.

(** A failing prefix is run through, and the loop goes on after it. *)
Lemma run_strategies_after_failures pre : forall i rest url h last es last',
  fails_in_turn rt i pre url h last es last' ->
  run_strategies rt i (pre ++ rest) url last h =
  (let '(r, es') := run_strategies rt (length pre + i) rest url last' (h ++ es) in
   (r, es ++ es')).
Proof.
  induction pre as [|s pre IH]; intros i rest url h last es last' Hfail;
    inversion Hfail; subst; simpl.
  - rewrite app_nil_r.
    destruct (run_strategies rt i rest url last' h); reflexivity.
  - unfold bind. rewrite attempt_run.
    match goal with H : strategy_call _ _ _ = _ |- _ => rewrite H end.
    match goal with H : truthy _ = false |- _ => rewrite H end.
    erewrite IH by eassumption.
    rewrite <- plus_n_Sm. repeat (rewrite <- app_assoc; simpl).
    destruct (run_strategies rt _ rest url last' _) as [r es2].
    repeat (rewrite <- app_assoc; simpl). reflexivity.
  - unfold bind. rewrite attempt_run.
    match goal with H : strategy_call _ _ _ = _ |- _ => rewrite H end.
    erewrite IH by eassumption.
    rewrite <- plus_n_Sm. repeat (rewrite <- app_assoc; simpl).
    destruct (run_strategies rt _ rest url last' _) as [r es2].
    repeat (rewrite <- app_assoc; simpl). reflexivity.
Qed.

Lemma run_strategies_first_success pre s post i url h last es_pre last_pre d es_s :
  fails_in_turn rt i pre url h last es_pre last_pre ->
  strategy_call s url ((h ++ es_pre) ++ [EvStdout (attempt_line (length pre + i) s)])
    = (Return d, es_s) ->
  truthy (dict_get "success" d VNone) = true ->
  run_strategies rt i (pre ++ s :: post) url last h =
  (Return d, es_pre ++ EvStdout (attempt_line (length pre + i) s) :: es_s).
Proof.
  intros Hpre Hcall Hok.
  rewrite (run_strategies_after_failures _ _ _ _ _ _ _ _ Hpre). simpl.
  unfold bind. rewrite attempt_run, Hcall, Hok. unfold ret.
  rewrite app_nil_r. reflexivity.
Qed.

Lemma run_strategies_all_fail ss i url h last es last' :
  fails_in_turn rt i ss url h last es last' ->
  run_strategies rt i ss url last h = (Return (all_failed rt last'), es).
Proof.
  intros Hfail.
  rewrite <- (app_nil_r ss) at 1.
  rewrite (run_strategies_after_failures _ _ _ _ _ _ _ _ Hfail). simpl.
  unfold ret. rewrite app_nil_r. reflexivity.
Qed.

(** When the last strategy fails too, its error text is the one reported. *)
Lemma run_strategies_last_failure pre s i url h last es_pre last_pre o es_s msg :
  fails_in_turn rt i pre url h last es_pre last_pre ->
  strategy_call s url ((h ++ es_pre) ++ [EvStdout (attempt_line (length pre + i) s)])
    = (o, es_s) ->
  failure_text rt o = Some msg ->
  exists es,
    run_strategies rt i (pre ++ [s]) url last h =
    (Return [("success", VBool false);
             ("error", VStr ("All SSL strategies failed. Last error: " +++ msg));
             ("data", VNone)]%string, es).
Proof.
  intros Hpre Hcall Htext.
  rewrite (run_strategies_after_failures _ _ _ _ _ _ _ _ Hpre). simpl.
  unfold bind. rewrite attempt_run, Hcall.
  destruct o as [d|e]; simpl in Htext.
  - destruct (truthy (dict_get "success" d VNone)); [discriminate|].
    injection Htext as <-. unfold ret, all_failed. eauto.
  - injection Htext as <-. unfold ret, all_failed. simpl. eauto.
Qed.

(** Every run ends either at a first success or with every strategy having
    failed in turn. *)
Lemma run_strategies_cases ss : forall i url last h r es,
  run_strategies rt i ss url last h = (r, es) ->
  (exists pre s post es_pre last_pre d es_s,
     ss = pre ++ s :: post /\
     fails_in_turn rt i pre url h last es_pre last_pre /\
     strategy_call s url ((h ++ es_pre) ++ [EvStdout (attempt_line (length pre + i) s)])
       = (Return d, es_s) /\
     truthy (dict_get "success" d VNone) = true /\
     r = Return d /\
     es = es_pre ++ EvStdout (attempt_line (length pre + i) s) :: es_s)
  \/
  (exists last', fails_in_turn rt i ss url h last es last' /\
                 r = Return (all_failed rt last')).
Proof.
  induction ss as [|s rest IH]; intros i url last h r es Hrun; simpl in Hrun.
  - right. unfold ret in Hrun. injection Hrun as <- <-.
    exists last. split; [constructor|reflexivity].
  - unfold bind in Hrun. rewrite attempt_run in Hrun.
    destruct (strategy_call s url (h ++ [EvStdout (attempt_line i s)]))
      as [[d|e] es1] eqn:Hcall.
    + destruct (truthy (dict_get "success" d VNone)) eqn:Hok.
      * left. unfold ret in Hrun. injection Hrun as <- <-.
        exists [], s, rest, [], last, d, es1. simpl.
        rewrite !app_nil_r.
        repeat split; try assumption; try constructor.
      * destruct (run_strategies rt (S i) rest url _ _) as [r2 es2] eqn:Hrest.
        injection Hrun as <- <-.
        destruct (IH _ _ _ _ _ _ Hrest)
          as [(pre & s' & post & es_pre & last_pre & d' & es_s & -> & Hpre & Hc & Ht & -> & ->)
             |(last' & Hall & ->)].
        -- left. exists (s :: pre), s', post,
             ((EvStdout (attempt_line i s) :: es1) ++ es_pre), last_pre, d', es_s.
           simpl. rewrite <- plus_n_Sm in *.
           repeat split; try assumption.
           ++ eapply fails_returning; eassumption.
           ++ rewrite <- Hc. f_equal. repeat (rewrite <- app_assoc; simpl). reflexivity.
           ++ repeat (rewrite <- app_assoc; simpl). reflexivity.
        -- right. exists last'. split; [|reflexivity].
           eapply fails_returning; eassumption.
    + destruct (run_strategies rt (S i) rest url _ _) as [r2 es2] eqn:Hrest.
      injection Hrun as <- <-.
      destruct (IH _ _ _ _ _ _ Hrest)
        as [(pre & s' & post & es_pre & last_pre & d' & es_s & -> & Hpre & Hc & Ht & -> & ->)
           |(last' & Hall & ->)].
      * left. exists (s :: pre), s', post,
          ((EvStdout (attempt_line i s) :: es1 ++ [EvStdout (failed_line rt i e)]) ++ es_pre),
          last_pre, d', es_s.
        simpl. rewrite <- plus_n_Sm in *.
        repeat split; try assumption.
        -- eapply fails_raising; eassumption.
        -- rewrite <- Hc. f_equal. repeat (rewrite <- app_assoc; simpl). reflexivity.
        -- repeat (rewrite <- app_assoc; simpl). reflexivity.
      * right. exists last'. split; [|reflexivity].
        eapply fails_raising; eassumption.
Qed.

End Coordinator.

(** ** The coordinator over the four strategies of the source *)

Section FetchDetails.
Variable rt : runtime.

Import GitHubPRFetcher.

Lemma quiet_failures_trace i pre url h last es last' :
  fails_in_turn rt i pre url h last es last' ->
  Forall one_get pre ->
  stdout_of es = attempt_lines i pre /\ length (requests_of es) = length pre.
Proof.
  induction 1 as [| i s rest url h last d es es' last' Hcall Hfalse Hrest IH
                  | i s rest url h last e es es' last' Hcall Hrest IH];
    intros Hq; simpl.
  - split; reflexivity.
  - inversion Hq as [|? ? Hs Hq']; subst.
    destruct (Hs url (h ++ [EvStdout (attempt_line i s)])) as (d' & rq & o & Hone).
    rewrite Hone in Hcall. injection Hcall as <- <-.
    destruct (IH Hq') as [IH1 IH2]. simpl.
    rewrite IH1. unfold requests_of in *. simpl. rewrite IH2. split; reflexivity.
  - inversion Hq as [|? ? Hs Hq']; subst.
    destruct (Hs url (h ++ [EvStdout (attempt_line i s)])) as (d' & rq & o & Hone).
    rewrite Hone in Hcall. discriminate.
Qed.

Lemma one_get_default self :
  one_get (mkStrategy "_fetch_with_default_ssl" (_fetch_with_default_ssl rt self)).
Proof. intros url h. simpl. rewrite _fetch_with_default_ssl_run. eauto. Qed.

Lemma one_get_disabled self :
  one_get (mkStrategy "_fetch_with_disabled_ssl_verification"
             (_fetch_with_disabled_ssl_verification rt self)).
Proof. intros url h. simpl. rewrite _fetch_with_disabled_ssl_verification_run. eauto. Qed.

Lemma one_get_custom self :
  one_get (mkStrategy "_fetch_with_custom_ssl_context" (_fetch_with_custom_ssl_context rt self)).
Proof. intros url h. simpl. rewrite _fetch_with_custom_ssl_context_run. eauto. Qed.

(** Whatever comes before another strategy in the list is one of the first
    three. *)
Lemma strategies_prefix self pre s post :
  strategies rt self = pre ++ s :: post -> Forall one_get pre.
Proof.
  unfold strategies. intros Heq.
  destruct pre as [|a [|b [|c [|d pre]]]]; simpl in Heq.
  - constructor.
  - injection Heq as <- _. repeat constructor. apply one_get_default.
  - injection Heq as <- <- _. repeat constructor;
      [apply one_get_default | apply one_get_disabled].
  - injection Heq as <- <- <- _. repeat constructor;
      [apply one_get_default | apply one_get_disabled | apply one_get_custom].
  - apply (f_equal (@length _)) in Heq. simpl in Heq.
    rewrite length_app in Heq. simpl in Heq. lia.
Qed.

(** A strategy of the list never raises; when it succeeds it has issued one
    GET call and its dict carries the payload and the method name. *)
Lemma strategy_call_cases self s url h :
  In s (strategies rt self) ->
  exists d es,
    strategy_call s url h = (Return d, es) /\
    stdout_of es = [] /\
    ((exists msg, d = [("success", VBool false); ("error", VStr msg)]%string) \/
     (exists data method rq o,
        d = [("success", VBool true); ("data", data); ("method", VStr method)]%string /\
        In method method_names /\ es = [EvGet rq o])).
Proof.
  unfold strategies, method_names. simpl.
  intros [<-|[<-|[<-|[<-|[]]]]]; simpl.
  - rewrite _fetch_with_default_ssl_run.
    do 2 eexists. split; [reflexivity|]. split; [reflexivity|].
    destruct (fetched _ _); simpl; [right|left]; eauto 10.
  - rewrite _fetch_with_disabled_ssl_verification_run.
    do 2 eexists. split; [reflexivity|]. split; [reflexivity|].
    destruct (fetched _ _); simpl; [right|left]; eauto 10.
  - rewrite _fetch_with_custom_ssl_context_run.
    do 2 eexists. split; [reflexivity|]. split; [reflexivity|].
    destruct (fetched _ _); simpl; [right|left]; eauto 10.
  - rewrite _fetch_with_system_ca_bundle_run.
    destruct (certifi_where rt) as [bundle|].
    + do 2 eexists. split; [reflexivity|]. split; [reflexivity|].
      destruct (fetched _ _) as [data|e]; simpl.
      * right. do 4 eexists. split; [reflexivity|]. split; [|reflexivity].
        simpl. tauto.
      * destruct e; simpl; left; eauto.
    + do 2 eexists. split; [reflexivity|]. split; [reflexivity|]. left. eauto.
Qed.

Lemma attempt_lines_app i pre rest :
  attempt_lines i (pre ++ rest) = attempt_lines i pre ++ attempt_lines (length pre + i) rest.
Proof.
  revert i. induction pre as [|s pre IH]; intros i; simpl; [reflexivity|].
  rewrite IH, <- plus_n_Sm. reflexivity.
Qed.

Lemma fetch_pr_details_unfold self owner repo pr_number :
  fetch_pr_details rt self owner repo pr_number =
  run_strategies rt 1 (strategies rt self) (details_url rt self owner repo pr_number) VNone.
Proof. reflexivity. Qed.

(** C2.  The coordinator tries the four strategies in the fixed order
    default SSL, disabled verification, custom context, system CA bundle.
    In a run where the strategies [pre] before [s] are each called once, in
    that order, and fail, and [s], called next, returns a dict [d] whose
    ['success'] is true, [fetch_pr_details] returns [d] itself and emits the
    events of [pre] and of [s] and nothing else: the lines printed are the
    attempts 1..k, one GET call was issued per attempted strategy, and no
    strategy of [post] is called. *)
Theorem fetch_pr_details_first_success
        self owner repo pr_number pre s post h es_pre last_pre d es_s :
  strategies rt self = pre ++ s :: post ->
  fails_in_turn rt 1 pre (details_url rt self owner repo pr_number) h VNone es_pre last_pre ->
  strategy_call s (details_url rt self owner repo pr_number)
    ((h ++ es_pre) ++ [EvStdout (attempt_line (length pre + 1) s)]) = (Return d, es_s) ->
  truthy (dict_get "success" d VNone) = true ->
  map strategy_name (strategies rt self) =
    ["_fetch_with_default_ssl"; "_fetch_with_disabled_ssl_verification";
     "_fetch_with_custom_ssl_context"; "_fetch_with_system_ca_bundle"]%string /\
  fetch_pr_details rt self owner repo pr_number h =
    (Return d, es_pre ++ EvStdout (attempt_line (length pre + 1) s) :: es_s) /\
  stdout_of (es_pre ++ EvStdout (attempt_line (length pre + 1) s) :: es_s) =
    attempt_lines 1 (pre ++ [s]) /\
  length (requests_of (es_pre ++ EvStdout (attempt_line (length pre + 1) s) :: es_s)) =
    (length pre + 1)%nat.
Proof.
  intros Hsplit Hpre Hcall Hok.
  split; [reflexivity|].
  split.
  { rewrite fetch_pr_details_unfold, Hsplit.
    eapply run_strategies_first_success; eassumption. }
  destruct (quiet_failures_trace _ _ _ _ _ _ _ Hpre (strategies_prefix _ _ _ _ Hsplit))
    as [Hout Hreq].
  assert (Hin : In s (strategies rt self)).
  { rewrite Hsplit. apply in_or_app. right. left. reflexivity. }
  destruct (strategy_call_cases self s (details_url rt self owner repo pr_number)
              ((h ++ es_pre) ++ [EvStdout (attempt_line (length pre + 1) s)]) Hin)
    as (d' & es' & Hcall' & Hquiet & Hshape).
  rewrite Hcall in Hcall'. injection Hcall' as <- <-.
  destruct Hshape as [(msg & ->)|(data & method & rq & o & -> & _ & ->)];
    [simpl in Hok; discriminate|].
  split.
  - rewrite stdout_of_app, attempt_lines_app, Hout. reflexivity.
  - rewrite requests_of_app, length_app, Hreq. reflexivity.
Qed.

(** The error text left by the last of a list of failing strategies. *)
Lemma fails_in_turn_last pre : forall s i url h last es last',
  fails_in_turn rt i (pre ++ [s]) url h last es last' ->
  exists h' o es_s,
    strategy_call s url h' = (o, es_s) /\ failure_text rt o = Some (fmt rt last').
Proof.
  induction pre as [|p pre IH]; intros s i url h last es last' Hfail; simpl in Hfail.
  - inversion Hfail; subst.
    + match goal with H : fails_in_turn _ _ [] _ _ _ _ _ |- _ => inversion H; subst end.
      do 3 eexists. split; [eassumption|]. simpl.
      match goal with H : truthy _ = false |- _ => rewrite H end. reflexivity.
    + match goal with H : fails_in_turn _ _ [] _ _ _ _ _ |- _ => inversion H; subst end.
      do 3 eexists. split; [eassumption|]. reflexivity.
  - inversion Hfail; subst; eapply IH; eassumption.
Qed.

(** What the system CA bundle strategy leaves as error text when it fails. *)
Lemma system_ca_failure_text self url h o es :
  _fetch_with_system_ca_bundle rt self url h = (o, es) ->
  (exists msg, failure_text rt o = Some msg /\
     (msg = "certifi package not available"%string \/
      exists e, msg = ("System CA bundle failed: " +++ str_exn rt e)%string)) \/
  failure_text rt o = None.
Proof.
  rewrite _fetch_with_system_ca_bundle_run.
  destruct (certifi_where rt) as [bundle|].
  - intros Heq. injection Heq as <- <-.
    destruct (fetched _ _) as [data|e]; simpl; [right; reflexivity|].
    left. destruct e; simpl; eauto.
  - intros Heq. injection Heq as <- <-. left. simpl. eauto.
Qed.

(** C3.  (1) The coordinator loop never raises, whatever its strategies do:
    an exception raised by one strategy is caught in the pass that called it
    and the loop moves on.  (2) When the strategies before the last one fail
    in turn and the last one fails too, by returning a failure dict or by
    raising, the loop returns the failure dict whose message is the last
    strategy's error text behind the prefix
    ["All SSL strategies failed. Last error: "].  (3) For [fetch_pr_details]
    itself: it always returns, and a result that is not a success is that
    failure dict, carrying the error text of the system CA bundle strategy. *)
Theorem fetch_pr_details_all_strategies_fail :
  (forall ss i url last h,
     exists d es, run_strategies rt i ss url last h = (Return d, es)) /\
  (forall pre s i url h last es_pre last_pre o es_s msg,
     fails_in_turn rt i pre url h last es_pre last_pre ->
     strategy_call s url ((h ++ es_pre) ++ [EvStdout (attempt_line (length pre + i) s)])
       = (o, es_s) ->
     failure_text rt o = Some msg ->
     exists es,
       run_strategies rt i (pre ++ [s]) url last h =
       (Return [("success", VBool false);
                ("error", VStr ("All SSL strategies failed. Last error: " +++ msg));
                ("data", VNone)]%string, es)) /\
  (forall self owner repo pr_number h,
     exists d es,
       fetch_pr_details rt self owner repo pr_number h = (Return d, es) /\
       (truthy (dict_get "success" d VNone) = false ->
        exists msg,
          d = [("success", VBool false);
               ("error", VStr ("All SSL strategies failed. Last error: " +++ msg));
               ("data", VNone)]%string /\
          (msg = "certifi package not available"%string \/
           exists e, msg = ("System CA bundle failed: " +++ str_exn rt e)%string))).
Proof.
  split; [|split].
  - intros ss i url last h. apply run_strategies_returns.
  - intros. eapply run_strategies_last_failure; eassumption.
  - intros self owner repo pr_number h.
    destruct (run_strategies_returns rt (strategies rt self) 1
                (details_url rt self owner repo pr_number) VNone h) as (d & es & Hrun).
    exists d, es. split; [exact Hrun|]. intros Hfalse.
    destruct (run_strategies_cases rt _ _ _ _ _ _ _ Hrun)
      as [(pre & s & post & es_pre & last_pre & d' & es_s & _ & _ & _ & Ht & Hd & _)
         |(last' & Hall & Hd)].
    + injection Hd as ->. rewrite Ht in Hfalse. discriminate.
    + injection Hd as ->.
      exists (fmt rt last'). split; [reflexivity|].
      change (strategies rt self) with
        ([mkStrategy "_fetch_with_default_ssl" (_fetch_with_default_ssl rt self);
          mkStrategy "_fetch_with_disabled_ssl_verification"
            (_fetch_with_disabled_ssl_verification rt self);
          mkStrategy "_fetch_with_custom_ssl_context" (_fetch_with_custom_ssl_context rt self)]
         ++ [mkStrategy "_fetch_with_system_ca_bundle" (_fetch_with_system_ca_bundle rt self)])
        in Hall.
      destruct (fails_in_turn_last _ _ _ _ _ _ _ _ Hall) as (h' & o & es_s & Hcall & Htext).
      simpl in Hcall.
      destruct (system_ca_failure_text self _ h' o es_s Hcall) as [(msg & Hmsg & Hor)|Hnone];
        rewrite Htext in *; [|discriminate].
      injection Hmsg as ->. exact Hor.
Qed.

End FetchDetails.

(** ** The two listings *)

Section Listings.
Variable rt : runtime.

Lemma fetcher_list_pull_requests_run self owner repo state per_page h :
  GitHubPRFetcher.list_pull_requests rt self owner repo state per_page h =
  (Return
     match projected Requests GitHubPRFetcher.summary
             (remote rt h (listing_request self owner repo state per_page)) with
     | Return data => [("success", VBool true); ("data", VList data)]%string
     | Raise e =>
         [("success", VBool false);
          ("error", VStr ("Failed to list pull requests: " +++ str_exn rt e));
          ("data", VNone)]%string
     end,
   [EvGet (listing_request self owner repo state per_page)
      (remote rt h (listing_request self owner repo state per_page))]).
Proof.
  unfold GitHubPRFetcher.list_pull_requests, listing_request, projected, fetched. run.
  on_remote; [|reflexivity].
  on_status; [reflexivity|].
  on_json; [|reflexivity].
  destruct (py_iter v) as [items|e]; simpl; [|reflexivity].
  destruct (map_result GitHubPRFetcher.summary items); reflexivity.
Qed.

Lemma list_pull_requests_run repo owner h :
  list_pull_requests rt repo owner h =
  match projected Httpx pr_entry (remote rt h (pulls_request repo owner)) with
  | Return items =>
      (Return (json_dumps rt (VList items)),
       [EvGet (pulls_request repo owner) (remote rt h (pulls_request repo owner))])
  | Raise e =>
      (Return ("Error: " +++ str_exn rt e),
       [EvGet (pulls_request repo owner) (remote rt h (pulls_request repo owner));
        EvStderr ("There was an error in the code: " +++ str_exn rt e)])
  end.
Proof.
  unfold list_pull_requests, pulls_request, projected, fetched. run.
  on_remote; [|reflexivity].
  on_status; [|reflexivity].
  on_json; [|reflexivity].
  destruct (py_iter v) as [items|e]; simpl; [|reflexivity].
  destruct (map_result pr_entry items); reflexivity.
Qed.

Lemma get_repository_issues_run owner repo state per_page h :
  get_repository_issues rt owner repo state per_page h =
  (match fetched Requests (remote rt h (issues_request owner repo state per_page)) with
   | Return issues => Return issues
   | Raise e =>
       if is_RequestException e
       then Return (VDict [("error", VStr ("Failed to fetch issues: " +++ str_exn rt e))]%string)
       else Raise e
   end,
   [EvGet (issues_request owner repo state per_page)
      (remote rt h (issues_request owner repo state per_page))]).
Proof.
  unfold get_repository_issues, issues_request, fetched. run.
  on_remote.
  - on_status; [reflexivity|].
    on_json; reflexivity.
  - destruct (is_RequestException e); reflexivity.
Qed.

End Listings.

(** ** [list_pull_requests] *)

Section ListPullRequests.
Variable rt : runtime.

Lemma pr_entry_five_fields pr :
  is_pull_request pr = true -> pr_entry pr = Return (five_fields pr).
Proof.
  unfold is_pull_request, pr_entry, five_fields, field, dict_get.
  destruct pr as [| | | | |l|d]; try discriminate. simpl.
  destruct (dict_lookup "number" d); [|discriminate].
  destruct (dict_lookup "title" d); [|discriminate].
  destruct (dict_lookup "state" d); [|discriminate].
  destruct (dict_lookup "user" d) as [[| | | | | |user]|]; try discriminate.
  destruct (dict_lookup "html_url" d); [|discriminate]. simpl.
  destruct (dict_lookup "login" user); [|discriminate].
  reflexivity.
Qed.

Lemma map_result_five_fields prs :
  Forall (fun pr => is_pull_request pr = true) prs ->
  map_result pr_entry prs = Return (map five_fields prs).
Proof.
  induction 1 as [|pr prs Hpr _ IH]; simpl; [reflexivity|].
  rewrite (pr_entry_five_fields _ Hpr), IH. reflexivity.
Qed.

(** C9.  When the remote answers the listing request with a 2xx status and a
    JSON array of pull requests, the tool returns the JSON text of the array
    that holds, for each pull request and in the same order, the object with
    exactly the five fields number, title, state, author (the login of the
    user) and url (the html_url); it makes that one GET call.  For an empty
    array the result is the JSON text of the empty array, not an error
    string. *)
Theorem list_pull_requests_five_fields repo owner h r prs :
  remote rt h (pulls_request repo owner) = Responded r ->
  200 <= status_code r <= 299 ->
  json_body r = Some (VList prs) ->
  Forall (fun pr => is_pull_request pr = true) prs ->
  list_pull_requests rt repo owner h =
    (Return (json_dumps rt (VList (map five_fields prs))),
     [EvGet (pulls_request repo owner) (Responded r)]) /\
  (prs = [] -> fst (list_pull_requests rt repo owner h) = Return (json_dumps rt (VList []))).
Proof.
  intros Hremote Hstatus Hjson Hprs.
  assert (Hrun : list_pull_requests rt repo owner h =
                 (Return (json_dumps rt (VList (map five_fields prs))),
                  [EvGet (pulls_request repo owner) (Responded r)])).
  { rewrite list_pull_requests_run, Hremote. unfold projected, fetched.
    replace ((200 <=? status_code r) && (status_code r <=? 299)) with true
      by (symmetry; apply andb_true_iff; split; apply Z.leb_le; lia).
    simpl. rewrite Hjson. simpl.
    rewrite (map_result_five_fields _ Hprs). reflexivity. }
  split; [exact Hrun|].
  intros ->. rewrite Hrun. reflexivity.
Qed.

(** C8.  Both listings are functions of the answer to their one GET call:
    two calls with the same arguments that receive the same answer return
    the same value and emit the same events, whatever happened between
    them. *)
Theorem list_pull_requests_idempotent repo owner self state per_page h1 h2 :
  remote rt h1 (pulls_request repo owner) = remote rt h2 (pulls_request repo owner) ->
  remote rt h1 (listing_request self owner repo state per_page)
    = remote rt h2 (listing_request self owner repo state per_page) ->
  list_pull_requests rt repo owner h1 = list_pull_requests rt repo owner h2 /\
  GitHubPRFetcher.list_pull_requests rt self owner repo state per_page h1
    = GitHubPRFetcher.list_pull_requests rt self owner repo state per_page h2.
Proof.
  intros Htool Hfetcher.
  rewrite !list_pull_requests_run, !fetcher_list_pull_requests_run, Htool, Hfetcher.
  split; reflexivity.
Qed.

End ListPullRequests.

(** ** [get_repository_readme] *)

Section Readme.
Variable rt : runtime.

(** One pass of the loop over the filenames. *)
Lemma readme_loop_cons owner repo branch filename rest h :
  readme_loop rt owner repo branch (filename :: rest) h =
  let rq := readme_request owner repo branch filename in
  let next := let '(r, es) := readme_loop rt owner repo branch rest
                                (h ++ [EvGet rq (remote rt h rq)]) in
              (r, EvGet rq (remote rt h rq) :: es) in
  match remote rt h rq with
  | Responded r =>
      if status_code r =? 200
      then (Return (Some (text r)), [EvGet rq (Responded r)])
      else next
  | Failed e =>
      if is_RequestException e then next else (Raise e, [EvGet rq (Failed e)])
  end.
Proof.
  simpl. run.
  on_remote.
  - on_status.
    + reflexivity.
    + rewrite ?app_nil_r.
      destruct (readme_loop rt owner repo branch rest _); reflexivity.
  - destruct (is_RequestException e); simpl; [|reflexivity].
    rewrite ?app_nil_r.
    destruct (readme_loop rt owner repo branch rest _); reflexivity.
Qed.

Lemma readme_loop_miss owner repo branch filename rest h :
  readme_miss (remote rt h (readme_request owner repo branch filename)) = true ->
  readme_loop rt owner repo branch (filename :: rest) h =
  (let '(r, es) := readme_loop rt owner repo branch rest
                     (h ++ [EvGet (readme_request owner repo branch filename)
                              (remote rt h (readme_request owner repo branch filename))]) in
   (r, EvGet (readme_request owner repo branch filename)
         (remote rt h (readme_request owner repo branch filename)) :: es)).
Proof.
  intros Hmiss. rewrite readme_loop_cons. cbv zeta.
  destruct (remote rt h (readme_request owner repo branch filename)) as [r|e];
    simpl in Hmiss.
  - destruct (status_code r =? 200); [discriminate|reflexivity].
  - rewrite Hmiss. reflexivity.
Qed.

(** Misses are passed over, and the loop goes on with the names left. *)
Lemma readme_loop_after_misses owner repo branch pre : forall rest h es,
  misses_in_turn rt owner repo branch pre h es ->
  readme_loop rt owner repo branch (pre ++ rest) h =
  (let '(r, es') := readme_loop rt owner repo branch rest (h ++ es) in (r, es ++ es')).
Proof.
  induction pre as [|filename pre IH]; intros rest h es Hmiss; inversion Hmiss; subst.
  - simpl. rewrite app_nil_r.
    destruct (readme_loop rt owner repo branch rest h); reflexivity.
  - rewrite <- app_comm_cons, readme_loop_miss by assumption.
    erewrite IH by eassumption.
    rewrite <- app_assoc. simpl.
    destruct (readme_loop rt owner repo branch rest _); reflexivity.
Qed.

Lemma misses_requests owner repo branch names h es :
  misses_in_turn rt owner repo branch names h es ->
  requests_of es = map (readme_request owner repo branch) names.
Proof.
  induction 1 as [|filename rest h es Hmiss Hrest IH]; [reflexivity|].
  unfold requests_of in *. simpl. rewrite IH. reflexivity.
Qed.

(** C5 (as amended).  A name counts as found when its fetch is answered
    with status 200, not with any success status.  The candidate filenames
    are README.md, README.rst, README.txt and
    README, in that order.  (1) When the names before [filename] are fetched
    in turn and each is a miss (a status other than 200, or a
    [RequestException], which is swallowed), and the fetch of [filename] is
    answered with status 200, the text of that answer is returned and no
    later name is fetched.  (2) In particular, when the fetch of README.md is
    answered with status 200, it is the only GET call.  (3) When all four
    fetches are misses the result is [None], after exactly the four GET
    calls in the fixed order. *)
Theorem get_repository_readme_first_match owner repo branch :
  filenames = ["README.md"; "README.rst"; "README.txt"; "README"]%string /\
  (forall pre filename post h es_pre r,
     filenames = pre ++ filename :: post ->
     misses_in_turn rt owner repo branch pre h es_pre ->
     remote rt (h ++ es_pre) (readme_request owner repo branch filename) = Responded r ->
     status_code r = 200 ->
     get_repository_readme rt owner repo branch h =
       (Return (Some (text r)),
        es_pre ++ [EvGet (readme_request owner repo branch filename) (Responded r)]) /\
     requests_of (es_pre ++ [EvGet (readme_request owner repo branch filename) (Responded r)])
       = map (readme_request owner repo branch) (pre ++ [filename])) /\
  (forall h r,
     remote rt h (readme_request owner repo branch "README.md") = Responded r ->
     status_code r = 200 ->
     get_repository_readme rt owner repo branch h =
       (Return (Some (text r)),
        [EvGet (readme_request owner repo branch "README.md") (Responded r)])) /\
  (forall h es,
     misses_in_turn rt owner repo branch filenames h es ->
     get_repository_readme rt owner repo branch h = (Return None, es) /\
     requests_of es = map (readme_request owner repo branch) filenames).
Proof.
  split; [reflexivity|].
  assert (Hfirst : forall pre filename post h es_pre r,
     filenames = pre ++ filename :: post ->
     misses_in_turn rt owner repo branch pre h es_pre ->
     remote rt (h ++ es_pre) (readme_request owner repo branch filename) = Responded r ->
     status_code r = 200 ->
     get_repository_readme rt owner repo branch h =
       (Return (Some (text r)),
        es_pre ++ [EvGet (readme_request owner repo branch filename) (Responded r)])).
  { intros pre filename post h es_pre r Hsplit Hmiss Hremote Hstatus.
    unfold get_repository_readme. rewrite Hsplit.
    rewrite (readme_loop_after_misses _ _ _ _ _ _ _ Hmiss), readme_loop_cons.
    cbv zeta. rewrite Hremote, Hstatus. reflexivity. }
  split; [|split].
  - intros pre filename post h es_pre r Hsplit Hmiss Hremote Hstatus.
    split; [eapply Hfirst; eassumption|].
    rewrite requests_of_app, map_app, (misses_requests _ _ _ _ _ _ Hmiss). reflexivity.
  - intros h r Hremote Hstatus.
    apply (Hfirst [] "README.md"%string ["README.rst"; "README.txt"; "README"]%string h [] r);
      [reflexivity | constructor | rewrite app_nil_r; exact Hremote | exact Hstatus].
  - intros h es Hmiss. split; [|eapply misses_requests; eassumption].
    unfold get_repository_readme.
    rewrite <- (app_nil_r filenames) at 1.
    rewrite (readme_loop_after_misses _ _ _ _ _ _ _ Hmiss). simpl.
    unfold ret. rewrite app_nil_r. reflexivity.
Qed.

End Readme.

(** ** [get_repository_file] *)

Section File.
Variable rt : runtime.

(** The call never raises and makes exactly one GET call. *)
Lemma get_repository_file_returns owner repo file_path branch h :
  exists v,
    get_repository_file rt owner repo file_path branch h =
    (Return v, [EvGet (file_request owner repo file_path branch)
                  (remote rt h (file_request owner repo file_path branch))]).
Proof.
  unfold get_repository_file. run.
  on_remote; [|eauto].
  on_status; [|eauto].
  on_json; [|eauto].
  destruct v as [| | | | | |d]; simpl; eauto.
  destruct (eq_str (dict_get "encoding" d VNone) "base64"); simpl; [|eauto].
  destruct (dict_lookup "content" d) as [content|]; simpl; [|eauto].
  destruct (b64decode_utf8 rt content); simpl; eauto.
Qed.

Lemma eq_str_true v s : eq_str v s = true <-> v = VStr s.
Proof.
  destruct v; simpl; split; try discriminate.
  - intros H. apply String.eqb_eq in H. subst. reflexivity.
  - intros H. injection H as ->. apply String.eqb_refl.
Qed.

(** C6.  [get_repository_file] always returns, after one GET call, and never
    raises.  It returns the text [content] exactly when the answer has
    status 200, its JSON body is an object whose [encoding] is ["base64"] and
    whose [content] is a string that base64-decodes to bytes that decode as
    UTF-8 to [content]; in every other case (another status, another or no
    encoding, a body that is not an object, a failed decoding, a failed
    call) the result is [None]. *)
Theorem get_repository_file_base64_only owner repo file_path branch h :
  exists v,
    get_repository_file rt owner repo file_path branch h =
      (Return v, [EvGet (file_request owner repo file_path branch)
                    (remote rt h (file_request owner repo file_path branch))]) /\
    (forall content,
       v = Some content <->
       exists r d encoded raw,
         remote rt h (file_request owner repo file_path branch) = Responded r /\
         status_code r = 200 /\
         json_body r = Some (VDict d) /\
         dict_get "encoding" d VNone = VStr "base64" /\
         dict_lookup "content" d = Some (VStr encoded) /\
         b64decode rt encoded = Some raw /\
         decode_utf8 rt raw = Some content) /\
    (forall r d,
       remote rt h (file_request owner repo file_path branch) = Responded r ->
       json_body r = Some (VDict d) ->
       dict_get "encoding" d VNone <> VStr "base64" ->
       v = None) /\
    (forall r,
       remote rt h (file_request owner repo file_path branch) = Responded r ->
       status_code r <> 200 ->
       v = None).
Proof.
  assert (Hiff : exists v,
    get_repository_file rt owner repo file_path branch h =
      (Return v, [EvGet (file_request owner repo file_path branch)
                    (remote rt h (file_request owner repo file_path branch))]) /\
    (forall content,
       v = Some content <->
       exists r d encoded raw,
         remote rt h (file_request owner repo file_path branch) = Responded r /\
         status_code r = 200 /\
         json_body r = Some (VDict d) /\
         dict_get "encoding" d VNone = VStr "base64" /\
         dict_lookup "content" d = Some (VStr encoded) /\
         b64decode rt encoded = Some raw /\
         decode_utf8 rt raw = Some content)).
  { unfold get_repository_file. run.
    destruct (remote rt h (file_request owner repo file_path branch)) as [r|e] eqn:Ho; simpl.
    2:{ eexists. split; [reflexivity|]. intros content. split; [discriminate|].
        intros (r & d & encoded & raw & Hr & _). discriminate. }
    destruct (status_code r =? 200) eqn:Hstatus; simpl.
    2:{ eexists. split; [reflexivity|]. intros content. split; [discriminate|].
        intros (r' & d & encoded & raw & Hr & Hs & _). injection Hr as <-.
        rewrite Hs in Hstatus. discriminate. }
    apply Z.eqb_eq in Hstatus.
    destruct (json_body r) as [body|] eqn:Hjson; simpl.
    2:{ eexists. split; [reflexivity|]. intros content. split; [discriminate|].
        intros (r' & d & encoded & raw & Hr & _ & Hj & _). injection Hr as <-.
        rewrite Hjson in Hj. discriminate. }
    destruct body as [| | | | | |d]; simpl;
      try (eexists; split; [reflexivity|]; intros content; split; [discriminate|];
           intros (r' & d & encoded & raw & Hr & _ & Hj & _); injection Hr as <-;
           rewrite Hjson in Hj; discriminate).
    destruct (eq_str (dict_get "encoding" d VNone) "base64") eqn:Henc; simpl.
    2:{ eexists. split; [reflexivity|]. intros content. split; [discriminate|].
        intros (r' & d' & encoded & raw & Hr & _ & Hj & He & _). injection Hr as <-.
        rewrite Hjson in Hj. injection Hj as <-.
        apply eq_str_true in He. rewrite He in Henc. discriminate. }
    apply eq_str_true in Henc.
    destruct (dict_lookup "content" d) as [c|] eqn:Hcontent; simpl.
    2:{ eexists. split; [reflexivity|]. intros content. split; [discriminate|].
        intros (r' & d' & encoded & raw & Hr & _ & Hj & _ & Hc & _). injection Hr as <-.
        rewrite Hjson in Hj. injection Hj as <-. rewrite Hcontent in Hc. discriminate. }
    assert (Hother : forall content,
              (exists r' d' encoded raw,
                 Responded r = Responded r' /\ status_code r' = 200 /\
                 json_body r' = Some (VDict d') /\
                 dict_get "encoding" d' VNone = VStr "base64" /\
                 dict_lookup "content" d' = Some (VStr encoded) /\
                 b64decode rt encoded = Some raw /\ decode_utf8 rt raw = Some content) ->
              exists encoded raw,
                c = VStr encoded /\ b64decode rt encoded = Some raw /\
                decode_utf8 rt raw = Some content).
    { intros content (r' & d' & encoded & raw & Hr & _ & Hj & _ & Hc & Hb & Hu).
      injection Hr as <-. rewrite Hjson in Hj. injection Hj as <-.
      rewrite Hcontent in Hc. injection Hc as ->. eauto. }
    unfold b64decode_utf8.
    destruct c as [| | | |encoded| |]; simpl;
      try (eexists; split; [reflexivity|]; intros content; split; [discriminate|];
           intros Hex; destruct (Hother content Hex) as (? & ? & ? & _); discriminate).
    destruct (b64decode rt encoded) as [raw|] eqn:Hb64; simpl.
    2:{ eexists. split; [reflexivity|]. intros content. split; [discriminate|].
        intros Hex. destruct (Hother content Hex) as (enc & raw & Henc' & Hb & _).
        injection Henc' as <-. rewrite Hb64 in Hb. discriminate. }
    destruct (decode_utf8 rt raw) as [decoded|] eqn:Hutf; simpl.
    2:{ eexists. split; [reflexivity|]. intros content. split; [discriminate|].
        intros Hex. destruct (Hother content Hex) as (enc & raw' & Henc' & Hb & Hu).
        injection Henc' as <-. rewrite Hb64 in Hb. injection Hb as <-.
        rewrite Hutf in Hu. discriminate. }
    eexists. split; [reflexivity|]. intros content. split.
    - intros Hv. injection Hv as <-. exists r, d, encoded, raw. auto 10.
    - intros Hex. destruct (Hother content Hex) as (enc & raw' & Henc' & Hb & Hu).
      injection Henc' as <-. rewrite Hb64 in Hb. injection Hb as <-.
      rewrite Hutf in Hu. injection Hu as <-. reflexivity. }
  destruct Hiff as (v & Hrun & Hiff).
  exists v. split; [exact Hrun|]. split; [exact Hiff|]. split.
  - intros r d Hr Hj Henc. destruct v as [content|]; [|reflexivity].
    destruct (proj1 (Hiff content) eq_refl) as (r' & d' & ? & ? & Hr' & _ & Hj' & He & _).
    rewrite Hr in Hr'. injection Hr' as <-. rewrite Hj in Hj'. injection Hj' as <-.
    contradiction.
  - intros r Hr Hstatus. destruct v as [content|]; [|reflexivity].
    destruct (proj1 (Hiff content) eq_refl) as (r' & d' & ? & ? & Hr' & Hs & _).
    rewrite Hr in Hr'. injection Hr' as <-. contradiction.
Qed.

End File.

(** ** Which operations can raise *)

Section Returns.
Variable rt : runtime.

(** The tool [list_pull_requests] and both methods of the fetcher always
    return; [get_repository_issues] raises exactly the exceptions of its GET
    call, status check or JSON decoding that are not
    [requests.RequestException]s. *)
Lemma operations_returning repo owner self pr_number state per_page h :
  (exists s, fst (list_pull_requests rt repo owner h) = Return s) /\
  (exists d, fst (GitHubPRFetcher.list_pull_requests rt self owner repo state per_page h)
             = Return d) /\
  (exists d, fst (GitHubPRFetcher.fetch_pr_details rt self owner repo pr_number h)
             = Return d) /\
  (forall e, fst (get_repository_issues rt owner repo state per_page h) = Raise e ->
             is_RequestException e = false).
Proof.
  rewrite list_pull_requests_run, fetcher_list_pull_requests_run, get_repository_issues_run.
  repeat split.
  - destruct (projected Httpx pr_entry _); simpl; eauto.
  - simpl. eauto.
  - destruct (run_strategies_returns rt (GitHubPRFetcher.strategies rt self) 1
                (details_url rt self owner repo pr_number) VNone h) as (d & es & Hrun).
    exists d. rewrite fetch_pr_details_unfold, Hrun. reflexivity.
  - simpl. intros e.
    destruct (fetched Requests _) as [issues|e']; [discriminate|].
    destruct (is_RequestException e') eqn:He; [discriminate|].
    intros H. injection H as <-. exact He.
Qed.

End Returns.

(** ** Timeouts *)

Section Timeouts.
Variable rt : runtime.

Lemma readme_loop_timeouts owner repo branch names : forall h,
  Forall (fun t => t = Some 10)
         (timeouts_of (snd (readme_loop rt owner repo branch names h))).
Proof.
  induction names as [|filename rest IH]; intros h.
  - constructor.
  - rewrite readme_loop_cons. cbv zeta.
    specialize (IH (h ++ [EvGet (readme_request owner repo branch filename)
                            (remote rt h (readme_request owner repo branch filename))])).
    destruct (readme_loop rt owner repo branch rest _) as [r' es].
    destruct (remote rt h _) as [r|e].
    + destruct (status_code r =? 200); repeat constructor. exact IH.
    + destruct (is_RequestException e); repeat constructor. exact IH.
Qed.

(** C7 (as amended).  Each of the four strategies passes [timeout=30] to its
    GET call (the system CA bundle strategy makes none when certifi is
    missing); [get_repository_issues] and [get_repository_file] pass
    [timeout=10] to their single GET call and [get_repository_readme] to
    each of its GET calls; the tool [list_pull_requests] passes no timeout
    to [httpx.get]. *)
Theorem timeouts_passed self url owner repo state per_page branch file_path h :
  timeouts_of (snd (GitHubPRFetcher._fetch_with_default_ssl rt self url h)) = [Some 30] /\
  timeouts_of (snd (GitHubPRFetcher._fetch_with_disabled_ssl_verification rt self url h))
    = [Some 30] /\
  timeouts_of (snd (GitHubPRFetcher._fetch_with_custom_ssl_context rt self url h))
    = [Some 30] /\
  timeouts_of (snd (GitHubPRFetcher._fetch_with_system_ca_bundle rt self url h))
    = match certifi_where rt with Some _ => [Some 30] | None => [] end /\
  timeouts_of (snd (get_repository_issues rt owner repo state per_page h)) = [Some 10] /\
  timeouts_of (snd (get_repository_file rt owner repo file_path branch h)) = [Some 10] /\
  Forall (fun t => t = Some 10)
         (timeouts_of (snd (get_repository_readme rt owner repo branch h))) /\
  timeouts_of (snd (get_repository_readme rt owner repo branch h)) <> [] /\
  timeouts_of (snd (list_pull_requests rt repo owner h)) = [None].
Proof.
  rewrite _fetch_with_default_ssl_run, _fetch_with_disabled_ssl_verification_run,
    _fetch_with_custom_ssl_context_run, _fetch_with_system_ca_bundle_run,
    get_repository_issues_run, list_pull_requests_run.
  repeat split; try reflexivity.
  - destruct (certifi_where rt); reflexivity.
  - destruct (get_repository_file_returns rt owner repo file_path branch h) as (v & ->).
    reflexivity.
  - apply readme_loop_timeouts.
  - unfold get_repository_readme, filenames. rewrite readme_loop_cons. cbv zeta.
    destruct (readme_loop rt owner repo branch _ _) as [r' es].
    destruct (remote rt h _) as [r|e].
    + destruct (status_code r =? 200); discriminate.
    + destruct (is_RequestException e); discriminate.
  - destruct (projected Httpx pr_entry _); reflexivity.
Qed.

End Timeouts.

(** ** [get_specified_pr] *)

Section SpecifiedPR.
Variable rt : runtime.

Import GitHubPRFetcher.

(** What the coordinator returns: a strategy's success dict or the failure
    dict of the exhausted loop. *)
Lemma fetch_pr_details_shape self owner repo pr_number h :
  exists d es,
    fetch_pr_details rt self owner repo pr_number h = (Return d, es) /\
    ((exists data method,
        d = [("success", VBool true); ("data", data); ("method", VStr method)]%string /\
        In method method_names) \/
     (exists last, d = all_failed rt last)).
Proof.
  destruct (run_strategies_returns rt (strategies rt self) 1
              (details_url rt self owner repo pr_number) VNone h) as (d & es & Hrun).
  exists d, es. split; [exact Hrun|].
  destruct (run_strategies_cases rt _ _ _ _ _ _ _ Hrun)
    as [(pre & s & post & es_pre & last_pre & d' & es_s & Hsplit & _ & Hcall & Ht & Hd & _)
       |(last' & _ & Hd)].
  - injection Hd as ->. left.
    assert (Hin : In s (strategies rt self)).
    { rewrite Hsplit. apply in_or_app. right. left. reflexivity. }
    destruct (strategy_call_cases rt self s (details_url rt self owner repo pr_number)
                ((h ++ es_pre) ++ [EvStdout (attempt_line (length pre + 1) s)]) Hin)
      as (d2 & es2 & Hcall' & _ & Hshape).
    rewrite Hcall in Hcall'. injection Hcall' as <- <-.
    destruct Hshape as [(msg & ->)|(data & method & rq & o & -> & Hm & _)];
      [simpl in Ht; discriminate|eauto].
  - injection Hd as ->. right. eauto.
Qed.

(** Every item of a listing the fetcher built has a ['number']. *)
Lemma summary_number pr item :
  summary pr = Return item -> getitem item "number" = Return (field "number" item).
Proof.
  unfold summary. intros H.
  repeat match type of H with
         | rbind ?x _ = _ => destruct x; simpl in H; [|discriminate]
         end.
  injection H as <-. reflexivity.
Qed.

Lemma map_result_summary_number items : forall data entry,
  map_result summary items = Return data ->
  In entry data ->
  getitem entry "number" = Return (field "number" entry).
Proof.
  induction items as [|pr items IH]; intros data entry Hmap Hin; simpl in Hmap.
  - injection Hmap as <-. destruct Hin.
  - destruct (summary pr) as [item|] eqn:Hitem; simpl in Hmap; [|discriminate].
    destruct (map_result summary items) as [rest|]; simpl in Hmap; [|discriminate].
    injection Hmap as <-. destruct Hin as [<-|Hin].
    + eapply summary_number; eassumption.
    + eapply IH; [reflexivity|exact Hin].
Qed.

Lemma projected_summary_number o data entry :
  projected Requests summary o = Return data ->
  In entry data ->
  getitem entry "number" = Return (field "number" entry).
Proof.
  unfold projected. intros H Hin.
  destruct (fetched Requests o) as [prs|]; simpl in H; [|discriminate].
  destruct (py_iter prs) as [items|]; simpl in H; [|discriminate].
  eapply map_result_summary_number; eassumption.
Qed.

Lemma list_index_In l i entry : list_index l i = Return entry -> In entry l.
Proof.
  unfold list_index. intros H.
  destruct (_ || _); [discriminate|].
  destruct (nth_error l _) eqn:Hnth; [|discriminate].
  injection H as <-. eapply nth_error_In; eassumption.
Qed.

(** The run of [get_specified_pr] once the listing has succeeded with a
    non-empty list. *)
Lemma get_specified_pr_listed owner repo pr_number h data :
  projected Requests summary
    (remote rt h (listing_request (tool_fetcher rt) owner repo "open" 30)) = Return data ->
  data <> [] ->
  get_specified_pr rt owner repo pr_number h =
  let ev := EvGet (listing_request (tool_fetcher rt) owner repo "open" 30)
              (remote rt h (listing_request (tool_fetcher rt) owner repo "open" 30)) in
  match list_index data (pr_number - 1) with
  | Raise e => (Raise e, [ev])
  | Return entry =>
      let '(r, es) := fetch_pr_details rt (tool_fetcher rt) owner repo
                        (field "number" entry) (h ++ [ev]) in
      (match r with
       | Return det => Return (specified_pr_result det data)
       | Raise e => Raise e
       end, ev :: es)
  end.
Proof.
  intros Hlist Hne. unfold get_specified_pr. fold (tool_fetcher rt).
  unfold bind at 1. rewrite fetcher_list_pull_requests_run, Hlist.
  destruct data as [|first others]; [contradiction|].
  cbv zeta. run. rewrite !app_nil_r.
  destruct (list_index (first :: others) (pr_number - 1)) as [entry|e] eqn:Hindex;
    [|reflexivity].
  rewrite (projected_summary_number _ _ _ Hlist (list_index_In _ _ _ Hindex)).
  destruct (fetch_pr_details_shape (tool_fetcher rt) owner repo (field "number" entry)
              (h ++ [EvGet (listing_request (tool_fetcher rt) owner repo "open" 30)
                       (remote rt h (listing_request (tool_fetcher rt) owner repo "open" 30))]))
    as (det & es & Hdet & [(payload & method & -> & _)|(last & ->)]);
    rewrite Hdet; simpl; rewrite !app_nil_r; reflexivity.
Qed.

(** The run of [get_specified_pr] when the listing fails or is empty: the
    dict of the listing is returned as it is. *)
Lemma get_specified_pr_not_listed owner repo pr_number h pr_list es1 :
  list_pull_requests rt (tool_fetcher rt) owner repo "open" 30 h = (Return pr_list, es1) ->
  truthy (dict_get "success" pr_list VNone) = false \/
  truthy (dict_get "data" pr_list VNone) = false ->
  get_specified_pr rt owner repo pr_number h = (Return pr_list, es1).
Proof.
  intros Hlist Hstop. unfold get_specified_pr. fold (tool_fetcher rt).
  unfold bind at 1. rewrite Hlist.
  rewrite fetcher_list_pull_requests_run in Hlist. injection Hlist as <- <-.
  destruct (projected Requests summary _) as [[|first others]|e]; run.
  - reflexivity.
  - destruct Hstop; discriminate.
  - reflexivity.
Qed.

(** The dict of a successful, non-empty listing. *)
Lemma listed_projected owner repo h pr_list es1 data :
  list_pull_requests rt (tool_fetcher rt) owner repo "open" 30 h = (Return pr_list, es1) ->
  truthy (dict_get "success" pr_list VNone) = true ->
  dict_get "data" pr_list VNone = VList data ->
  projected Requests summary
    (remote rt h (listing_request (tool_fetcher rt) owner repo "open" 30)) = Return data /\
  es1 = [EvGet (listing_request (tool_fetcher rt) owner repo "open" 30)
           (remote rt h (listing_request (tool_fetcher rt) owner repo "open" 30))].
Proof.
  rewrite fetcher_list_pull_requests_run. intros Hlist Hok Hdata.
  injection Hlist as <- <-.
  destruct (projected Requests summary _) as [items|e]; simpl in *; [|discriminate].
  unfold dict_get in Hdata. simpl in Hdata. injection Hdata as ->.
  split; reflexivity.
Qed.


Lemma list_index_in_range l p :
  1 <= p <= Z.of_nat (length l) ->
  exists entry,
    nth_error l (Z.to_nat (p - 1)) = Some entry /\ list_index l (p - 1) = Return entry.
Proof.
  intros Hp. unfold list_index.
  replace (p - 1 <? 0) with false by (symmetry; apply Z.ltb_ge; lia).
  replace ((p - 1 <? 0) || (Z.of_nat (length l) <=? p - 1)) with false
    by (symmetry; apply orb_false_iff; split; [apply Z.ltb_ge|apply Z.leb_gt]; lia).
  destruct (nth_error l (Z.to_nat (p - 1))) as [entry|] eqn:Hnth; [eauto|].
  apply nth_error_None in Hnth. lia.
Qed.

Lemma list_index_beyond l p :
  Z.of_nat (length l) < p ->
  list_index l (p - 1) = Raise (IndexError "list index out of range").
Proof.
  intros Hp. unfold list_index.
  destruct (p - 1 <? 0) eqn:Hneg; [apply Z.ltb_lt in Hneg; lia|].
  replace ((p - 1 <? 0) || (Z.of_nat (length l) <=? p - 1)) with true; [reflexivity|].
  symmetry. apply orb_true_iff. right. apply Z.leb_le. lia.
Qed.

Lemma nth_error_last (l : list pyval) d :
  l <> [] -> nth_error l (length l - 1) = Some (last l d).
Proof.
  induction l as [|a l IH]; intros Hne; [contradiction|].
  destruct l as [|b l]; [reflexivity|].
  change (last (a :: b :: l) d) with (last (b :: l) d).
  rewrite <- IH by discriminate.
  simpl. rewrite Nat.sub_0_r. reflexivity.
Qed.

Lemma list_index_minus_one l :
  l <> [] -> list_index l (-1) = Return (last l VNone).
Proof.
  intros Hne. unfold list_index.
  assert (Hlen : (0 < length l)%nat) by (destruct l; [contradiction|simpl; lia]).
  change (-1 <? 0) with true. cbv iota.
  replace ((-1 + Z.of_nat (length l) <? 0) || (Z.of_nat (length l) <=? -1 + Z.of_nat (length l)))
    with false
    by (symmetry; apply orb_false_iff; split; [apply Z.ltb_ge|apply Z.leb_gt]; lia).
  replace (Z.to_nat (-1 + Z.of_nat (length l))) with (length l - 1)%nat by lia.
  rewrite (nth_error_last l VNone Hne). reflexivity.
Qed.

(** C4 (as amended).  [get_specified_pr] first lists the open pull requests.
    (1) When the listing fails or is empty, the dict of the listing is
    returned unchanged, and nothing else is fetched; for a failed listing it
    is the failure dict, for an empty one the successful dict with an empty
    list.  (2) With a successful listing of n >= 1 entries: for
    [pr_number > n] the lookup raises [IndexError]; for
    [1 <= pr_number <= n] the entry at the 1-based index [pr_number] is
    selected, the details of its ['number'] are fetched through the
    coordinator, and the result is, on success, the payload, the name of the
    method that succeeded and the full listing, and otherwise the failure of
    the coordinator. *)
Theorem get_specified_pr_by_index owner repo pr_number h pr_list es1 :
  list_pull_requests rt (tool_fetcher rt) owner repo "open" 30 h = (Return pr_list, es1) ->
  (truthy (dict_get "success" pr_list VNone) = false \/
   truthy (dict_get "data" pr_list VNone) = false ->
   get_specified_pr rt owner repo pr_number h = (Return pr_list, es1)) /\
  (forall data,
     truthy (dict_get "success" pr_list VNone) = true ->
     dict_get "data" pr_list VNone = VList data ->
     data <> [] ->
     (Z.of_nat (length data) < pr_number ->
      get_specified_pr rt owner repo pr_number h =
        (Raise (IndexError "list index out of range"), es1)) /\
     (1 <= pr_number <= Z.of_nat (length data) ->
      exists entry det es2,
        nth_error data (Z.to_nat (pr_number - 1)) = Some entry /\
        fetch_pr_details rt (tool_fetcher rt) owner repo (field "number" entry) (h ++ es1)
          = (Return det, es2) /\
        get_specified_pr rt owner repo pr_number h
          = (Return (specified_pr_result det data), es1 ++ es2) /\
        (truthy (dict_get "success" det VNone) = true ->
         exists method,
           dict_get "method" det VNone = VStr method /\ In method method_names))).
Proof.
  intros Hlist. split.
  - intros Hstop. eapply get_specified_pr_not_listed; eassumption.
  - intros data Hok Hdata Hne.
    destruct (listed_projected _ _ _ _ _ _ Hlist Hok Hdata) as [Hproj ->].
    rewrite (get_specified_pr_listed owner repo pr_number h data Hproj Hne). cbv zeta.
    split.
    + intros Hbeyond. rewrite (list_index_beyond _ _ Hbeyond). reflexivity.
    + intros Hrange.
      destruct (list_index_in_range _ _ Hrange) as (entry & Hnth & ->).
      destruct (fetch_pr_details_shape (tool_fetcher rt) owner repo (field "number" entry)
                  (h ++ [EvGet (listing_request (tool_fetcher rt) owner repo "open" 30)
                           (remote rt h
                              (listing_request (tool_fetcher rt) owner repo "open" 30))]))
        as (det & es2 & Hdet & Hshape).
      exists entry, det, es2. rewrite Hdet.
      repeat split; try assumption.
      intros Hsuccess.
      destruct Hshape as [(payload & method & -> & Hm)|(last & ->)];
        [exists method; split; [reflexivity|exact Hm] | discriminate].
Qed.

(** C10.  With the declared default [pr_number = 0] and a successful,
    non-empty listing, the lookup does not raise: the index [0 - 1 = -1]
    selects the last entry of the listing, and the details fetched are those
    of the ['number'] of that last entry. *)
Theorem get_specified_pr_default_selects_last owner repo h pr_list es1 data :
  list_pull_requests rt (tool_fetcher rt) owner repo "open" 30 h = (Return pr_list, es1) ->
  truthy (dict_get "success" pr_list VNone) = true ->
  dict_get "data" pr_list VNone = VList data ->
  data <> [] ->
  list_index data (default_pr_number - 1) = Return (last data VNone) /\
  exists det es2,
    fetch_pr_details rt (tool_fetcher rt) owner repo (field "number" (last data VNone))
      (h ++ es1) = (Return det, es2) /\
    get_specified_pr rt owner repo default_pr_number h
      = (Return (specified_pr_result det data), es1 ++ es2).
Proof.
  intros Hlist Hok Hdata Hne.
  destruct (listed_projected _ _ _ _ _ _ Hlist Hok Hdata) as [Hproj ->].
  split; [apply list_index_minus_one; exact Hne|].
  rewrite (get_specified_pr_listed owner repo default_pr_number h data Hproj Hne). cbv zeta.
  change (default_pr_number - 1) with (-1).
  rewrite (list_index_minus_one _ Hne).
  destruct (fetch_pr_details_shape (tool_fetcher rt) owner repo
              (field "number" (last data VNone))
              (h ++ [EvGet (listing_request (tool_fetcher rt) owner repo "open" 30)
                       (remote rt h
                          (listing_request (tool_fetcher rt) owner repo "open" 30))]))
    as (det & es2 & Hdet & _).
  exists det, es2. rewrite Hdet. split; reflexivity.
Qed.

End SpecifiedPR.

(** * The properties on the concrete runtime *)

(** Pull request 12 of [octocat/Hello-World]: default verification fails,
    the second strategy succeeds, the last two are never called. *)
Lemma fetch_pr_details_first_success_witness :
  GitHubPRFetcher.fetch_pr_details Scenario.rt Example.self "octocat" "Hello-World" (VInt 12) [] =
  (Return [("success", VBool true); ("data", Scenario.detail 12);
           ("method", VStr "disabled_ssl_verification")]%string,
   [EvStdout "Attempting strategy 1: _fetch_with_default_ssl";
    EvGet (default_request Example.self Example.url12) Example.refused;
    EvStdout "Attempting strategy 2: _fetch_with_disabled_ssl_verification";
    EvGet (disabled_request Example.self Example.url12)
          (Scenario.ok "{...}" (Some (Scenario.detail 12)))]).
Proof.
  assert (Hpre : fails_in_turn Scenario.rt 1 (firstn 1 (GitHubPRFetcher.strategies Scenario.rt Example.self))
                   Example.url12 [] VNone
                   [EvStdout "Attempting strategy 1: _fetch_with_default_ssl";
                    EvGet (default_request Example.self Example.url12) Example.refused]
                   (VStr "Default SSL failed: certificate verify failed")).
  { refine (fails_returning Scenario.rt 1 _ [] Example.url12 [] VNone
              [("success", VBool false);
               ("error", VStr "Default SSL failed: certificate verify failed")]%string
              [EvGet (default_request Example.self Example.url12) Example.refused] [] _ _ _ _).
    - vm_compute. reflexivity.
    - reflexivity.
    - constructor. }
  exact (proj1 (proj2
    (fetch_pr_details_first_success Scenario.rt Example.self "octocat" "Hello-World" (VInt 12)
       (firstn 1 (GitHubPRFetcher.strategies Scenario.rt Example.self))
       (GitHubPRFetcher.mkStrategy "_fetch_with_disabled_ssl_verification"
          (GitHubPRFetcher._fetch_with_disabled_ssl_verification Scenario.rt Example.self))
       (skipn 2 (GitHubPRFetcher.strategies Scenario.rt Example.self))
       [] _ _ _ _ eq_refl Hpre eq_refl eq_refl))).
Defined.

(** Every call for [octocat/Nope] is refused: the four strategies fail in
    turn and the error reported is the one of the last. *)
Lemma fetch_pr_details_all_strategies_fail_witness :
  exists es,
    GitHubPRFetcher.fetch_pr_details Scenario.rt Example.self "octocat" "Nope" (VInt 3) [] =
    (Return [("success", VBool false);
             ("error", VStr ("All SSL strategies failed. Last error: "
                             +++ "System CA bundle failed: connection refused"));
             ("data", VNone)]%string, es).
Proof.
  assert (Hpre : exists es last,
            fails_in_turn Scenario.rt 1 (firstn 3 (GitHubPRFetcher.strategies Scenario.rt Example.self))
              (details_url Scenario.rt Example.self "octocat" "Nope" (VInt 3))
              [] VNone es last).
  { do 2 eexists. cbn [firstn GitHubPRFetcher.strategies].
    eapply fails_returning; [cbv; reflexivity | reflexivity |].
    eapply fails_returning; [cbv; reflexivity | reflexivity |].
    eapply fails_returning; [cbv; reflexivity | reflexivity |].
    apply fails_none. }
  destruct Hpre as (es_pre & last_pre & Hpre).
  destruct (fetch_pr_details_all_strategies_fail Scenario.rt) as (_ & Hlast & _).
  exact (Hlast (firstn 3 (GitHubPRFetcher.strategies Scenario.rt Example.self))
           (GitHubPRFetcher.mkStrategy "_fetch_with_system_ca_bundle"
              (GitHubPRFetcher._fetch_with_system_ca_bundle Scenario.rt Example.self))
           1%nat (details_url Scenario.rt Example.self "octocat" "Nope" (VInt 3))
           [] VNone es_pre last_pre _ _ "System CA bundle failed: connection refused"%string
           Hpre eq_refl eq_refl).
Defined.

(** The listing of [octocat/Hello-World] has two entries; index 2 selects
    pull request 7, whose details the second strategy obtains. *)
Lemma get_specified_pr_by_index_witness :
  exists det es2,
    GitHubPRFetcher.fetch_pr_details Scenario.rt Example.self "octocat" "Hello-World" (VInt 7)
      [Example.listed] = (Return det, es2) /\
    get_specified_pr Scenario.rt "octocat" "Hello-World" 2 [] =
      (Return [("success", VBool true); ("latest_pr", Scenario.detail 7);
               ("method_used", VStr "disabled_ssl_verification");
               ("all_prs", VList Example.data)]%string,
       Example.listed :: es2).
Proof.
  destruct (get_specified_pr_by_index Scenario.rt "octocat" "Hello-World" 2 []
              [("success", VBool true); ("data", VList Example.data)]%string
              [Example.listed] eq_refl) as [_ Hlisted].
  destruct (Hlisted Example.data eq_refl eq_refl ltac:(discriminate)) as [_ Hrange].
  destruct (Hrange ltac:(simpl; lia)) as (entry & det & es2 & Hnth & Hfetch & Hrun & _).
  injection Hnth as <-.
  exists det, es2. split; [exact Hfetch|].
  rewrite Hrun. f_equal. f_equal.
  change (GitHubPRFetcher.fetch_pr_details Scenario.rt Example.self "octocat" "Hello-World" (VInt 7)
            [Example.listed] = (Return det, es2)) in Hfetch.
  vm_compute in Hfetch. injection Hfetch as <- _. reflexivity.
Defined.

(** With [pr_number = 0], which is no 1-based index into a listing of two
    entries, the lookup does not raise: the details of pull request 7, the
    last entry, are returned.  And for the repository without pull requests
    what is returned is the successful listing, not a failure. *)
Lemma get_specified_pr_by_index_counterexample :
  length Example.data = 2%nat /\
  ~ (1 <= 0 <= Z.of_nat (length Example.data)) /\
  fst (get_specified_pr Scenario.rt "octocat" "Hello-World" 0 []) =
    Return [("success", VBool true); ("latest_pr", Scenario.detail 7);
            ("method_used", VStr "disabled_ssl_verification");
            ("all_prs", VList Example.data)]%string /\
  fst (get_specified_pr Scenario.rt "octocat" "Empty" 1 []) =
    Return [("success", VBool true); ("data", VList [])]%string.
Proof.
  split; [reflexivity|]. split; [simpl; lia|]. split; vm_compute; reflexivity.
Qed.

(** The default [pr_number] on [octocat/Hello-World]: the last entry, pull
    request 7, is the one whose details are fetched. *)
Lemma get_specified_pr_default_selects_last_witness :
  last Example.data VNone = Example.entry 7 "Fix typo" "bob" /\
  exists det es2,
    GitHubPRFetcher.fetch_pr_details Scenario.rt Example.self "octocat" "Hello-World" (VInt 7)
      [Example.listed] = (Return det, es2) /\
    get_specified_pr Scenario.rt "octocat" "Hello-World" default_pr_number [] =
      (Return (specified_pr_result det Example.data), Example.listed :: es2).
Proof.
  split; [reflexivity|].
  destruct (get_specified_pr_default_selects_last Scenario.rt "octocat" "Hello-World" []
              [("success", VBool true); ("data", VList Example.data)]%string
              [Example.listed] Example.data eq_refl eq_refl eq_refl ltac:(discriminate))
    as (_ & det & es2 & Hfetch & Hrun).
  exists det, es2. split; [exact Hfetch|exact Hrun].
Defined.

(** C1 fails on the code.  The listing of [octocat/Hello-World] has two
    entries; [get_specified_pr] with [pr_number = 3] raises [IndexError]
    after the listing call instead of returning a result. *)
Theorem get_specified_pr_out_of_range_raises :
  get_specified_pr Scenario.rt "octocat" "Hello-World" 3 [] =
  (Raise (IndexError "list index out of range"), [Example.listed]).
Proof. vm_compute. reflexivity. Qed.

(** [README.md] is missing, [README.rst] is there: two GET calls, the text
    of the second answer. *)
Lemma get_repository_readme_first_match_witness :
  get_repository_readme Scenario.rt "octocat" "Hello-World" "main" [] =
  (Return (Some "Hello World!"%string),
   [EvGet (readme_request "octocat" "Hello-World" "main" "README.md") Scenario.not_found;
    EvGet (readme_request "octocat" "Hello-World" "main" "README.rst")
          (Scenario.ok "Hello World!" None)]).
Proof.
  destruct (get_repository_readme_first_match Scenario.rt "octocat" "Hello-World" "main")
    as (_ & Hfirst & _).
  refine (proj1 (Hfirst ["README.md"%string] "README.rst"%string
                   ["README.txt"; "README"]%string []
                   [EvGet (readme_request "octocat" "Hello-World" "main" "README.md")
                      Scenario.not_found]
                   (mkResponse 200 "Hello World!" None) eq_refl _ eq_refl eq_refl)).
  refine (misses_next Scenario.rt "octocat" "Hello-World" "main" "README.md"%string
            [] [] [] eq_refl _).
  constructor.
Defined.

(** Behind the mirror the fetch of [README.md] succeeds: it is answered with
    status 203, which [raise_for_status] lets pass.  Its text is not what is
    returned: [README.rst] is fetched as well, and it is the text of that
    second answer, the first with status 200, that comes back. *)
Lemma get_repository_readme_first_match_counterexample :
  remote Mirror.rt [] (readme_request "octocat" "Hello-World" "main" "README.md")
    = Responded Mirror.copy /\
  200 <= status_code Mirror.copy <= 299 /\
  raise_for_status Requests Mirror.copy [] = (Return tt, []) /\
  get_repository_readme Mirror.rt "octocat" "Hello-World" "main" [] =
    (Return (Some "Hello World!"%string),
     [EvGet (readme_request "octocat" "Hello-World" "main" "README.md")
            (Responded Mirror.copy);
      EvGet (readme_request "octocat" "Hello-World" "main" "README.rst")
            (Scenario.ok "Hello World!" None)]) /\
  text Mirror.copy <> "Hello World!"%string.
Proof.
  split; [reflexivity|]. split; [simpl; lia|]. split; [reflexivity|].
  split; [vm_compute; reflexivity|discriminate].
Qed.

(** The file [README.rst] is served base64-encoded and decodes; the path
    [docs] is a directory, served as an array: no text. *)
Lemma get_repository_file_base64_only_witness :
  fst (get_repository_file Scenario.rt "octocat" "Hello-World" "README.rst" "main" [])
    = Return (Some "Hello"%string) /\
  fst (get_repository_file Scenario.rt "octocat" "Hello-World" "docs" "main" [])
    = Return None.
Proof.
  split.
  - destruct (get_repository_file_base64_only Scenario.rt "octocat" "Hello-World"
                "README.rst" "main" []) as (v & Hrun & Hiff & _).
    rewrite Hrun. simpl. f_equal.
    apply Hiff.
    exists (mkResponse 200 "{...}"
              (Some (VDict [("encoding", VStr "base64"); ("content", VStr "SGVsbG8=")]%string))),
      [("encoding", VStr "base64"); ("content", VStr "SGVsbG8=")]%string,
      "SGVsbG8="%string, "Hello"%string.
    repeat split.
  - destruct (get_repository_file_base64_only Scenario.rt "octocat" "Hello-World"
                "docs" "main" []) as (v & Hrun & Hiff & _).
    rewrite Hrun. simpl. f_equal.
    destruct v as [content|]; [|reflexivity].
    destruct (proj1 (Hiff content) eq_refl) as (r & d & ? & ? & Hr & _ & Hj & _).
    vm_compute in Hr. injection Hr as <-. discriminate Hj.
Defined.

(** Without certifi the last strategy makes no call, and its text is the
    one reported. *)
Example fetch_pr_details_without_certifi :
  fst (GitHubPRFetcher.fetch_pr_details Scenario.rt_no_certifi
         (tool_fetcher Scenario.rt_no_certifi) "octocat" "Nope" (VInt 3) []) =
  Return [("success", VBool false);
          ("error", VStr "All SSL strategies failed. Last error: certifi package not available");
          ("data", VNone)]%string.
Proof. vm_compute. reflexivity. Qed.

(** The GET call of the tool [list_pull_requests] carries no timeout. *)
Lemma timeouts_passed_counterexample :
  exists rq,
    requests_of (snd (list_pull_requests Scenario.rt "Hello-World" "octocat" [])) = [rq] /\
    rq_timeout rq <> Some 10.
Proof.
  exists (pulls_request "Hello-World" "octocat").
  split; [vm_compute; reflexivity|discriminate].
Qed.

(** Two calls for [octocat/Hello-World], the second after the first: the
    same answers, the same results. *)
Lemma list_pull_requests_idempotent_witness :
  list_pull_requests Scenario.rt "Hello-World" "octocat" []
    = list_pull_requests Scenario.rt "Hello-World" "octocat"
        (snd (list_pull_requests Scenario.rt "Hello-World" "octocat" [])) /\
  GitHubPRFetcher.list_pull_requests Scenario.rt Example.self "octocat" "Hello-World" "open" 30 []
    = GitHubPRFetcher.list_pull_requests Scenario.rt Example.self "octocat" "Hello-World"
        "open" 30 [Example.listed].
Proof.
  exact (list_pull_requests_idempotent Scenario.rt "Hello-World" "octocat" Example.self
           "open" 30 []
           (snd (list_pull_requests Scenario.rt "Hello-World" "octocat" []))
           eq_refl eq_refl).
Defined.

(** The tool on [octocat/Hello-World]: the two pull requests, five fields
    each, in the order of the response. *)
Lemma list_pull_requests_five_fields_witness :
  list_pull_requests Scenario.rt "Hello-World" "octocat" [] =
  (Return (Scenario.render
             (VList [VDict [("number", VInt 12); ("title", VStr "Add parser");
                            ("state", VStr "open"); ("author", VStr "alice");
                            ("url", VStr "https://github.com/octocat/Hello-World/pull/12")];
                     VDict [("number", VInt 7); ("title", VStr "Fix typo");
                            ("state", VStr "open"); ("author", VStr "bob");
                            ("url", VStr "https://github.com/octocat/Hello-World/pull/7")]]%string)),
   [EvGet (pulls_request "Hello-World" "octocat")
          (Scenario.ok "[...]" (Some (VList Scenario.listing)))]).
Proof.
  refine (proj1 (list_pull_requests_five_fields Scenario.rt "Hello-World" "octocat" []
                   (mkResponse 200 "[...]" (Some (VList Scenario.listing)))
                   Scenario.listing eq_refl _ eq_refl _)).
  - simpl. lia.
  - repeat constructor.
Defined.


(** * Further properties of the two files *)

(** ** Vocabulary *)

(** What every GET call of a strategy looks like: the URL it was handed, the
    headers of the fetcher, no query parameters, a 30 second timeout. *)
Definition details_request (self : GitHubPRFetcher.t) (url : string) (rq : request) : Prop :=
  rq_url rq = url /\ rq_headers rq = GitHubPRFetcher.headers self /\
  rq_params rq = [] /\ rq_timeout rq = Some 30.

(** The ['method'] a strategy reports, read off the way its GET call was
    configured. *)
Definition method_of (rq : request) : string :=
  match rq_verify rq, rq_client rq with
  | VerifyDefault, _ => "default_ssl"
  | VerifyBundle _, _ => "system_ca_bundle"
  | VerifyFalse, RequestsSession => "custom_ssl_context"
  | VerifyFalse, _ => "disabled_ssl_verification"
  end.

(** The value of a header. *)
Fixpoint header (k : string) (hs : list (string * string)) : option string :=
  match hs with
  | [] => None
  | (k', v) :: rest => if String.eqb k k' then Some v else header k rest
  end.

(** The seven fields of a pull request in the fetcher's listing. *)
Definition seven_fields (pr : pyval) : pyval :=
  VDict [("number", field "number" pr); ("title", field "title" pr);
         ("state", field "state" pr); ("author", field "login" (field "user" pr));
         ("url", field "html_url" pr);
         ("created_at", field "created_at" pr);
         ("updated_at", field "updated_at" pr)]%string.

(** A pull request object that also has its two timestamps. *)
Definition is_dated_pull_request (pr : pyval) : bool :=
  is_pull_request pr &&
  match pr with
  | VDict d =>
      match dict_lookup "created_at" d, dict_lookup "updated_at" d with
      | Some _, Some _ => true
      | _, _ => false
      end
  | _ => false
  end.

(** A remote whose listing holds one well-formed pull request and one item
    with nothing but a number. *)
Definition truncated_listing : list pyval :=
  [Scenario.pull 12 "Add parser" "alice"; VDict [("number", VInt 3)]]%string.

Definition truncated_rt : runtime :=
  {| remote := fun _ _ => Scenario.ok "[...]" (Some (VList truncated_listing));
     str_exn := Scenario.show_exn;
     py_repr := Scenario.render;
     json_dumps := Scenario.render;
     b64decode := Scenario.unbase64;
     decode_utf8 := fun raw => Some raw;
     getenv_GITHUB_TOKEN := Some "t0ken"%string;
     certifi_where := None |}.

(** ** The trace of the coordinator *)

Section CoordinatorTrace.
Variable rt : runtime.

Lemma fetched_Return c o data :
  fetched c o = Return data ->
  exists r, o = Responded r /\ json_body r = Some data /\
            (c <> Httpx -> (400 <=? status_code r) && (status_code r <? 600) = false).
Proof.
  unfold fetched. destruct o as [r|e]; [|discriminate].
  destruct (json_body r) as [v|] eqn:Hj.
  - destruct c; simpl.
    + destruct (negb _); [discriminate|].
      intros H. injection H as ->. exists r.
      split; [reflexivity|]. split; [exact Hj|]. intros Hc. contradiction.
    + destruct ((400 <=? status_code r) && (status_code r <? 600)) eqn:Hs; [discriminate|].
      intros H. injection H as ->. exists r.
      split; [reflexivity|]. split; [exact Hj|]. intros _. exact Hs.
    + destruct ((400 <=? status_code r) && (status_code r <? 600)) eqn:Hs; [discriminate|].
      intros H. injection H as ->. exists r.
      split; [reflexivity|]. split; [exact Hj|]. intros _. exact Hs.
  - destruct c; simpl; destruct (_ : bool); discriminate.
Qed.

(** A strategy of the list prints nothing and makes at most one GET call, of
    the expected form; when it succeeds, its dict carries the body of the
    answer and the method name that goes with the call. *)
Lemma strategy_call_events self s url h :
  In s (GitHubPRFetcher.strategies rt self) ->
  exists d es,
    GitHubPRFetcher.strategy_call s url h = (Return d, es) /\
    stdout_of es = [] /\
    Forall (details_request self url) (requests_of es) /\
    (length (requests_of es) <= 1)%nat /\
    (truthy (dict_get "success" d VNone) = true ->
     exists rq r data,
       es = [EvGet rq (Responded r)] /\ json_body r = Some data /\
       (400 <=? status_code r) && (status_code r <? 600) = false /\
       d = [("success", VBool true); ("data", data); ("method", VStr (method_of rq))]%string).
Proof.
  unfold GitHubPRFetcher.strategies. simpl.
  intros [<-|[<-|[<-|[<-|[]]]]]; simpl.
  - rewrite _fetch_with_default_ssl_run.
    do 2 eexists. split; [reflexivity|]. split; [reflexivity|].
    split; [repeat constructor|]. split; [simpl; lia|].
    destruct (fetched Requests _) as [data|e] eqn:Hf; simpl; [|discriminate].
    intros _. destruct (fetched_Return _ _ _ Hf) as (r & -> & Hj & Hs).
    exists (default_request self url), r, data.
    repeat split; try assumption. apply Hs. discriminate.
  - rewrite _fetch_with_disabled_ssl_verification_run.
    do 2 eexists. split; [reflexivity|]. split; [reflexivity|].
    split; [repeat constructor|]. split; [simpl; lia|].
    destruct (fetched Requests _) as [data|e] eqn:Hf; simpl; [|discriminate].
    intros _. destruct (fetched_Return _ _ _ Hf) as (r & -> & Hj & Hs).
    exists (disabled_request self url), r, data.
    repeat split; try assumption. apply Hs. discriminate.
  - rewrite _fetch_with_custom_ssl_context_run.
    do 2 eexists. split; [reflexivity|]. split; [reflexivity|].
    split; [repeat constructor|]. split; [simpl; lia|].
    destruct (fetched RequestsSession _) as [data|e] eqn:Hf; simpl; [|discriminate].
    intros _. destruct (fetched_Return _ _ _ Hf) as (r & -> & Hj & Hs).
    exists (custom_request self url), r, data.
    repeat split; try assumption. apply Hs. discriminate.
  - rewrite _fetch_with_system_ca_bundle_run.
    destruct (certifi_where rt) as [bundle|].
    + do 2 eexists. split; [reflexivity|]. split; [reflexivity|].
      split; [repeat constructor|]. split; [simpl; lia|].
      destruct (fetched Requests _) as [data|e] eqn:Hf; simpl.
      * intros _. destruct (fetched_Return _ _ _ Hf) as (r & -> & Hj & Hs).
        exists (bundle_request self url bundle), r, data.
        repeat split; try assumption. apply Hs. discriminate.
      * destruct e; simpl; discriminate.
    + do 2 eexists. split; [reflexivity|]. split; [reflexivity|].
      split; [constructor|]. split; [simpl; lia|]. simpl. discriminate.
Qed.

(** Strategies of the list that fail in turn leave one attempt line each,
    no line about a caught exception, and at most one GET call each. *)
Lemma failures_trace self i pre url h last es last' :
  fails_in_turn rt i pre url h last es last' ->
  (forall s, In s pre -> In s (GitHubPRFetcher.strategies rt self)) ->
  stdout_of es = attempt_lines i pre /\
  Forall (details_request self url) (requests_of es) /\
  (length (requests_of es) <= length pre)%nat.
Proof.
  induction 1 as [| i s rest url h last d es es' last' Hcall Hfalse Hrest IH
                  | i s rest url h last e es es' last' Hcall Hrest IH];
    intros Hin.
  - repeat split; constructor.
  - destruct (strategy_call_events self s url
                (h ++ [EvStdout (GitHubPRFetcher.attempt_line i s)]) (Hin s (or_introl eq_refl)))
      as (d' & es1 & Hcall' & Hout & Hreq & Hlen & _).
    rewrite Hcall in Hcall'. injection Hcall' as <- <-.
    destruct (IH (fun s' Hs' => Hin s' (or_intror Hs'))) as (IH1 & IH2 & IH3).
    rewrite stdout_of_app, requests_of_app, length_app. simpl.
    rewrite Hout, IH1.
    change (requests_of (EvStdout (GitHubPRFetcher.attempt_line i s) :: es))
      with (requests_of es).
    split; [reflexivity|]. split; [apply Forall_app; split; assumption | lia].
  - destruct (strategy_call_events self s url
                (h ++ [EvStdout (GitHubPRFetcher.attempt_line i s)]) (Hin s (or_introl eq_refl)))
      as (d' & es1 & Hcall' & _).
    rewrite Hcall in Hcall'. discriminate.
Qed.

Lemma firstn_split_length (pre : list GitHubPRFetcher.strategy) s post :
  firstn (length pre + 1) (pre ++ s :: post) = pre ++ [s].
Proof.
  induction pre as [|p pre IH]; simpl; [reflexivity|]. rewrite IH. reflexivity.
Qed.

(** The attempts and GET calls of one call of the coordinator. *)
Lemma coordinator_trace self owner repo pr_number h :
  exists d es k,
    GitHubPRFetcher.fetch_pr_details rt self owner repo pr_number h = (Return d, es) /\
    (1 <= k <= 4)%nat /\
    stdout_of es = attempt_lines 1 (firstn k (GitHubPRFetcher.strategies rt self)) /\
    Forall (details_request self (details_url rt self owner repo pr_number)) (requests_of es) /\
    (length (requests_of es) <= k)%nat /\
    (truthy (dict_get "success" d VNone) = false -> k = 4%nat).
Proof.
  destruct (run_strategies_returns rt (GitHubPRFetcher.strategies rt self) 1
              (details_url rt self owner repo pr_number) VNone h) as (d & es & Hrun).
  rewrite fetch_pr_details_unfold. exists d, es.
  destruct (run_strategies_cases rt _ _ _ _ _ _ _ Hrun)
    as [(pre & s & post & es_pre & last_pre & d' & es_s & Hsplit & Hpre & Hcall & Ht & Hd & ->)
       |(last' & Hall & Hd)].
  - injection Hd as ->. exists (length pre + 1)%nat.
    split; [exact Hrun|].
    assert (Hlen : (length pre + 1 <= 4)%nat).
    { apply (f_equal (@length _)) in Hsplit. rewrite length_app in Hsplit.
      simpl in Hsplit. lia. }
    split; [lia|].
    assert (Hin : forall s', In s' pre -> In s' (GitHubPRFetcher.strategies rt self)).
    { intros s' Hs'. rewrite Hsplit. apply in_or_app. left. exact Hs'. }
    destruct (failures_trace self _ _ _ _ _ _ _ Hpre Hin) as (Hout & Hreq & Hcount).
    assert (Hs : In s (GitHubPRFetcher.strategies rt self)).
    { rewrite Hsplit. apply in_or_app. right. left. reflexivity. }
    destruct (strategy_call_events self s (details_url rt self owner repo pr_number)
                ((h ++ es_pre) ++ [EvStdout (GitHubPRFetcher.attempt_line (length pre + 1) s)])
                Hs) as (d2 & es2 & Hcall' & Hout2 & Hreq2 & Hcount2 & _).
    rewrite Hcall in Hcall'. injection Hcall' as <- <-.
    rewrite Hsplit at 1. rewrite firstn_split_length, attempt_lines_app.
    rewrite stdout_of_app, requests_of_app, length_app. simpl.
    change (requests_of (EvStdout (GitHubPRFetcher.attempt_line (length pre + 1) s) :: es_s))
      with (requests_of es_s).
    rewrite Hout, Hout2.
    split; [reflexivity|]. split; [apply Forall_app; split; assumption|].
    split; [lia|]. intros Hfalse. rewrite Ht in Hfalse. discriminate.
  - injection Hd as ->. exists 4%nat.
    split; [exact Hrun|]. split; [lia|].
    destruct (failures_trace self _ _ _ _ _ _ _ Hall (fun s' Hs' => Hs'))
      as (Hout & Hreq & Hcount).
    split; [exact Hout|]. split; [exact Hreq|]. split; [exact Hcount|reflexivity].
Qed.

(** X1.  Whatever the remote does, a call of [fetch_pr_details] returns a
    dict after trying the first k of the four strategies, 1 <= k <= 4, and
    k = 4 when the dict is not a success.  It prints the k lines
    ["Attempting strategy i: name"] and never the line of a caught
    exception; it makes at most k GET calls, every one to the URL of the
    pull request, with the headers of the fetcher, no query parameters and a
    30 second timeout. *)
Theorem fetch_pr_details_trace self owner repo pr_number h :
  exists d es k,
    GitHubPRFetcher.fetch_pr_details rt self owner repo pr_number h = (Return d, es) /\
    (1 <= k <= 4)%nat /\
    stdout_of es = attempt_lines 1 (firstn k (GitHubPRFetcher.strategies rt self)) /\
    Forall (details_request self (details_url rt self owner repo pr_number)) (requests_of es) /\
    (length (requests_of es) <= k)%nat /\
    (truthy (dict_get "success" d VNone) = false -> k = 4%nat).
Proof. apply coordinator_trace. Qed.

(** X2.  When [fetch_pr_details] returns a success, the payload is the JSON
    body of the answer to the last GET call it made, an answer whose status
    is neither 4xx nor 5xx, and ['method'] names the way that call was
    configured: default verification, verification off, verification off
    through a session, or the certifi bundle. *)
Theorem fetch_pr_details_payload self owner repo pr_number h d es :
  GitHubPRFetcher.fetch_pr_details rt self owner repo pr_number h = (Return d, es) ->
  truthy (dict_get "success" d VNone) = true ->
  exists es' rq r data,
    es = es' ++ [EvGet rq (Responded r)] /\
    details_request self (details_url rt self owner repo pr_number) rq /\
    json_body r = Some data /\
    ~ (400 <= status_code r < 600) /\
    d = [("success", VBool true); ("data", data); ("method", VStr (method_of rq))]%string.
Proof.
  rewrite fetch_pr_details_unfold. intros Hrun Hok.
  destruct (run_strategies_cases rt _ _ _ _ _ _ _ Hrun)
    as [(pre & s & post & es_pre & last_pre & d' & es_s & Hsplit & Hpre & Hcall & Ht & Hd & ->)
       |(last' & Hall & Hd)].
  - injection Hd as ->.
    assert (Hs : In s (GitHubPRFetcher.strategies rt self)).
    { rewrite Hsplit. apply in_or_app. right. left. reflexivity. }
    destruct (strategy_call_events self s (details_url rt self owner repo pr_number)
                ((h ++ es_pre) ++ [EvStdout (GitHubPRFetcher.attempt_line (length pre + 1) s)])
                Hs) as (d2 & es2 & Hcall' & _ & Hreq & _ & Hsuccess).
    rewrite Hcall in Hcall'. injection Hcall' as <- <-.
    destruct (Hsuccess Hok) as (rq & r & data & -> & Hj & Hstatus & ->).
    exists (es_pre ++ [EvStdout (GitHubPRFetcher.attempt_line (length pre + 1) s)]), rq, r, data.
    split; [rewrite <- app_assoc; reflexivity|].
    split; [inversion Hreq; assumption|].
    split; [exact Hj|]. split; [|reflexivity].
    intros [Hlo Hhi]. apply andb_false_iff in Hstatus.
    destruct Hstatus as [H|H]; [apply Z.leb_gt in H|apply Z.ltb_ge in H]; lia.
  - injection Hd as ->. simpl in Hok. discriminate.
Qed.

End CoordinatorTrace.

(** ** [get_specified_pr] on every index *)

Section SpecifiedPRCases.
Variable rt : runtime.

(** When [l[i]] raises. *)
Lemma list_index_raises l i e :
  list_index l i = Raise e <->
  (i < - Z.of_nat (length l) \/ Z.of_nat (length l) <= i) /\
  e = IndexError "list index out of range".
Proof.
  unfold list_index.
  destruct (i <? 0) eqn:Hneg;
    [apply Z.ltb_lt in Hneg | apply Z.ltb_ge in Hneg].
  - destruct ((i + Z.of_nat (length l) <? 0) || (Z.of_nat (length l) <=? i + Z.of_nat (length l)))
      eqn:Hout.
    + apply orb_true_iff in Hout.
      destruct Hout as [H|H]; [apply Z.ltb_lt in H|apply Z.leb_le in H]; try lia.
      split; [intros Heq; injection Heq as <-; split; [lia|reflexivity]|].
      intros [_ ->]. reflexivity.
    + apply orb_false_iff in Hout. destruct Hout as [H1 H2].
      apply Z.ltb_ge in H1. apply Z.leb_gt in H2.
      destruct (nth_error l (Z.to_nat (i + Z.of_nat (length l)))) eqn:Hnth.
      * split; [discriminate|]. intros [[H|H] _]; lia.
      * apply nth_error_None in Hnth. lia.
  - destruct ((i <? 0) || (Z.of_nat (length l) <=? i)) eqn:Hout.
    + apply orb_true_iff in Hout.
      destruct Hout as [H|H]; [apply Z.ltb_lt in H|apply Z.leb_le in H]; try lia.
      split; [intros Heq; injection Heq as <-; split; [lia|reflexivity]|].
      intros [_ ->]. reflexivity.
    + apply orb_false_iff in Hout. destruct Hout as [H1 H2].
      apply Z.leb_gt in H2.
      destruct (nth_error l (Z.to_nat i)) eqn:Hnth.
      * split; [discriminate|]. intros [[H|H] _]; lia.
      * apply nth_error_None in Hnth. lia.
Qed.

(** A negative index counts from the end. *)
Lemma list_index_from_end l i :
  - Z.of_nat (length l) <= i < 0 ->
  exists entry,
    nth_error l (Z.to_nat (Z.of_nat (length l) + i)) = Some entry /\
    list_index l i = Return entry.
Proof.
  intros Hi. unfold list_index.
  replace (i <? 0) with true by (symmetry; apply Z.ltb_lt; lia). cbv iota.
  replace ((i + Z.of_nat (length l) <? 0) || (Z.of_nat (length l) <=? i + Z.of_nat (length l)))
    with false
    by (symmetry; apply orb_false_iff; split; [apply Z.ltb_ge|apply Z.leb_gt]; lia).
  replace (i + Z.of_nat (length l)) with (Z.of_nat (length l) + i) by lia.
  destruct (nth_error l (Z.to_nat (Z.of_nat (length l) + i))) as [entry|] eqn:Hnth; [eauto|].
  apply nth_error_None in Hnth. lia.
Qed.

(** X3.  [get_specified_pr] raises exactly when the listing succeeds with
    n >= 1 entries and [pr_number > n] or [pr_number <= -n]; the exception
    is then [IndexError].  In every other case, whatever the remote does, it
    returns a dict. *)
Theorem get_specified_pr_raises_iff owner repo pr_number h e :
  fst (get_specified_pr rt owner repo pr_number h) = Raise e <->
  exists pr_list es1 data,
    GitHubPRFetcher.list_pull_requests rt (tool_fetcher rt) owner repo "open" 30 h
      = (Return pr_list, es1) /\
    truthy (dict_get "success" pr_list VNone) = true /\
    dict_get "data" pr_list VNone = VList data /\
    data <> [] /\
    (Z.of_nat (length data) < pr_number \/ pr_number <= - Z.of_nat (length data)) /\
    e = IndexError "list index out of range".
Proof.
  pose proof (fetcher_list_pull_requests_run rt (tool_fetcher rt) owner repo "open" 30 h)
    as Hlist.
  destruct (projected Requests GitHubPRFetcher.summary
              (remote rt h (listing_request (tool_fetcher rt) owner repo "open" 30)))
    as [data|e0] eqn:Hproj.
  - destruct data as [|first others].
    + rewrite (get_specified_pr_not_listed rt owner repo pr_number h _ _ Hlist)
        by (right; reflexivity).
      split; [discriminate|].
      intros (pr_list & es1 & data & Hl & _ & Hdata & Hne & _).
      rewrite Hlist in Hl. injection Hl as <- <-.
      unfold dict_get in Hdata. simpl in Hdata. injection Hdata as <-. contradiction.
    + rewrite (get_specified_pr_listed rt owner repo pr_number h _ Hproj)
        by discriminate. cbv zeta.
      destruct (list_index (first :: others) (pr_number - 1)) as [entry|e1] eqn:Hindex.
      * destruct (fetch_pr_details_shape rt (tool_fetcher rt) owner repo (field "number" entry)
                    (h ++ [EvGet (listing_request (tool_fetcher rt) owner repo "open" 30)
                             (remote rt h
                                (listing_request (tool_fetcher rt) owner repo "open" 30))]))
          as (det & es2 & Hdet & _).
        rewrite Hdet. simpl. split; [discriminate|].
        intros (pr_list & es1 & data & Hl & _ & Hdata & _ & Hrange & _).
        rewrite Hlist in Hl. injection Hl as <- <-.
        unfold dict_get in Hdata. simpl in Hdata. injection Hdata as <-.
        assert (Hraise : list_index (first :: others) (pr_number - 1)
                         = Raise (IndexError "list index out of range")).
        { apply list_index_raises. split; [|reflexivity]. simpl length in *. lia. }
        rewrite Hindex in Hraise. discriminate.
      * simpl. apply list_index_raises in Hindex. destruct Hindex as [Hrange ->].
        split.
        -- intros Heq. injection Heq as <-.
           do 3 eexists. split; [exact Hlist|].
           repeat split; try discriminate. simpl length in *. lia.
        -- intros (_ & _ & _ & _ & _ & _ & _ & _ & ->). reflexivity.
  - rewrite (get_specified_pr_not_listed rt owner repo pr_number h _ _ Hlist)
      by (left; reflexivity).
    split; [discriminate|].
    intros (pr_list & es1 & data & Hl & Hok & _).
    rewrite Hlist in Hl. injection Hl as <- <-. discriminate.
Qed.

(** X4.  With a successful listing of n entries and [-n < pr_number <= 0],
    the lookup counts from the end: the entry at 0-based position
    [n + pr_number - 1] is selected, and its details are fetched and
    returned as for a positive index. *)
Theorem get_specified_pr_counts_from_end owner repo pr_number h pr_list es1 data :
  GitHubPRFetcher.list_pull_requests rt (tool_fetcher rt) owner repo "open" 30 h
    = (Return pr_list, es1) ->
  truthy (dict_get "success" pr_list VNone) = true ->
  dict_get "data" pr_list VNone = VList data ->
  - Z.of_nat (length data) < pr_number <= 0 ->
  exists entry det es2,
    nth_error data (Z.to_nat (Z.of_nat (length data) + pr_number - 1)) = Some entry /\
    GitHubPRFetcher.fetch_pr_details rt (tool_fetcher rt) owner repo (field "number" entry)
      (h ++ es1) = (Return det, es2) /\
    get_specified_pr rt owner repo pr_number h
      = (Return (specified_pr_result det data), es1 ++ es2).
Proof.
  intros Hlist Hok Hdata Hrange.
  destruct (listed_projected rt _ _ _ _ _ _ Hlist Hok Hdata) as [Hproj ->].
  assert (Hne : data <> []) by (intros ->; simpl in Hrange; lia).
  rewrite (get_specified_pr_listed rt owner repo pr_number h data Hproj Hne). cbv zeta.
  destruct (list_index_from_end data (pr_number - 1) ltac:(lia)) as (entry & Hnth & ->).
  replace (Z.of_nat (length data) + (pr_number - 1))
    with (Z.of_nat (length data) + pr_number - 1) in Hnth by lia.
  destruct (fetch_pr_details_shape rt (tool_fetcher rt) owner repo (field "number" entry)
              (h ++ [EvGet (listing_request (tool_fetcher rt) owner repo "open" 30)
                       (remote rt h
                          (listing_request (tool_fetcher rt) owner repo "open" 30))]))
    as (det & es2 & Hdet & _).
  exists entry, det, es2. rewrite Hdet. repeat split; assumption.
Qed.

(** The three ways a call of [get_specified_pr] can go. *)
Lemma get_specified_pr_cases owner repo pr_number h :
  let ev := EvGet (listing_request (tool_fetcher rt) owner repo "open" 30)
              (remote rt h (listing_request (tool_fetcher rt) owner repo "open" 30)) in
  (exists pr_list,
     get_specified_pr rt owner repo pr_number h = (Return pr_list, [ev]) /\
     ((exists msg, pr_list = [("success", VBool false);
                              ("error", VStr ("Failed to list pull requests: " +++ msg));
                              ("data", VNone)]%string) \/
      pr_list = [("success", VBool true); ("data", VList [])]%string)) \/
  get_specified_pr rt owner repo pr_number h
    = (Raise (IndexError "list index out of range"), [ev]) \/
  (exists data entry det es2,
     data <> [] /\ In entry data /\
     GitHubPRFetcher.fetch_pr_details rt (tool_fetcher rt) owner repo (field "number" entry)
       (h ++ [ev]) = (Return det, es2) /\
     get_specified_pr rt owner repo pr_number h
       = (Return (specified_pr_result det data), ev :: es2)).
Proof.
  cbv zeta.
  pose proof (fetcher_list_pull_requests_run rt (tool_fetcher rt) owner repo "open" 30 h)
    as Hlist.
  destruct (projected Requests GitHubPRFetcher.summary
              (remote rt h (listing_request (tool_fetcher rt) owner repo "open" 30)))
    as [data|e0] eqn:Hproj.
  - destruct data as [|first others].
    + left. eexists. split; [|right; reflexivity].
      apply (get_specified_pr_not_listed rt owner repo pr_number h _ _ Hlist).
      right. reflexivity.
    + right.
      rewrite (get_specified_pr_listed rt owner repo pr_number h _ Hproj) by discriminate.
      cbv zeta.
      destruct (list_index (first :: others) (pr_number - 1)) as [entry|e1] eqn:Hindex.
      * right.
        destruct (fetch_pr_details_shape rt (tool_fetcher rt) owner repo (field "number" entry)
                    (h ++ [EvGet (listing_request (tool_fetcher rt) owner repo "open" 30)
                             (remote rt h
                                (listing_request (tool_fetcher rt) owner repo "open" 30))]))
          as (det & es2 & Hdet & _).
        exists (first :: others), entry, det, es2. rewrite Hdet.
        split; [discriminate|]. split; [eapply list_index_In; eassumption|].
        split; reflexivity.
      * left. apply list_index_raises in Hindex. destruct Hindex as [_ ->]. reflexivity.
  - left. eexists. split; [|left; eexists; reflexivity].
    apply (get_specified_pr_not_listed rt owner repo pr_number h _ _ Hlist).
    left. reflexivity.
Qed.

(** X5.  A dict returned by [get_specified_pr] has one of four shapes: the
    failure of the listing (its error behind
    ["Failed to list pull requests: "]), the successful empty listing
    (['success'] true but no ['latest_pr']), the success with the four keys
    [success], [latest_pr], [method_used], [all_prs], where [method_used] is
    one of the four method names and [all_prs] is not empty, or the failure
    of the coordinator (its error behind
    ["All SSL strategies failed. Last error: "]). *)
Theorem get_specified_pr_result_shape owner repo pr_number h d es :
  get_specified_pr rt owner repo pr_number h = (Return d, es) ->
  (exists msg, d = [("success", VBool false);
                    ("error", VStr ("Failed to list pull requests: " +++ msg));
                    ("data", VNone)]%string) \/
  d = [("success", VBool true); ("data", VList [])]%string \/
  (exists latest_pr method data,
     d = [("success", VBool true); ("latest_pr", latest_pr);
          ("method_used", VStr method); ("all_prs", VList data)]%string /\
     In method method_names /\ data <> []) \/
  (exists msg, d = [("success", VBool false);
                    ("error", VStr ("All SSL strategies failed. Last error: " +++ msg));
                    ("data", VNone)]%string).
Proof.
  intros Hrun.
  destruct (get_specified_pr_cases owner repo pr_number h)
    as [(pr_list & Hcase & Hshape)|[Hcase|(data & entry & det & es2 & Hne & _ & Hdet & Hcase)]];
    rewrite Hcase in Hrun.
  - injection Hrun as <- _. destruct Hshape as [Hfail| ->]; [left; exact Hfail|right; left; reflexivity].
  - discriminate.
  - injection Hrun as <- _.
    destruct (fetch_pr_details_shape rt (tool_fetcher rt) owner repo (field "number" entry)
                (h ++ [EvGet (listing_request (tool_fetcher rt) owner repo "open" 30)
                         (remote rt h
                            (listing_request (tool_fetcher rt) owner repo "open" 30))]))
      as (det' & es2' & Hdet' & Hshape).
    rewrite Hdet in Hdet'. injection Hdet' as <- <-.
    destruct Hshape as [(payload & method & -> & Hm)|(last & ->)].
    + right. right. left. exists payload, method, data. repeat split; assumption.
    + right. right. right. eexists. reflexivity.
Qed.

(** The GET calls of one call of [get_specified_pr]. *)
Lemma specified_pr_requests owner repo pr_number h :
  exists rest,
    requests_of (snd (get_specified_pr rt owner repo pr_number h))
      = listing_request (tool_fetcher rt) owner repo "open" 30 :: rest /\
    rq_verify (listing_request (tool_fetcher rt) owner repo "open" 30) = VerifyFalse /\
    rq_params (listing_request (tool_fetcher rt) owner repo "open" 30)
      = [("state", VStr "open"); ("per_page", VInt 30);
         ("sort", VStr "updated"); ("direction", VStr "desc")]%string /\
    (length rest <= 4)%nat /\
    (exists number,
       Forall (details_request (tool_fetcher rt)
                 (details_url rt (tool_fetcher rt) owner repo number)) rest) /\
    Forall (fun rq => rq_headers rq = GitHubPRFetcher.headers (tool_fetcher rt) /\
                      rq_timeout rq = Some 30)
           (requests_of (snd (get_specified_pr rt owner repo pr_number h))).
Proof.
  assert (Hmain : exists rest,
    requests_of (snd (get_specified_pr rt owner repo pr_number h))
      = listing_request (tool_fetcher rt) owner repo "open" 30 :: rest /\
    (length rest <= 4)%nat /\
    (exists number,
       Forall (details_request (tool_fetcher rt)
                 (details_url rt (tool_fetcher rt) owner repo number)) rest)).
  { destruct (get_specified_pr_cases owner repo pr_number h)
      as [(pr_list & Hcase & _)|[Hcase|(data & entry & det & es2 & _ & _ & Hdet & Hcase)]];
      rewrite Hcase.
    - exists []. split; [reflexivity|]. split; [simpl; lia|]. exists VNone. constructor.
    - exists []. split; [reflexivity|]. split; [simpl; lia|]. exists VNone. constructor.
    - exists (requests_of es2). split; [reflexivity|].
      destruct (coordinator_trace rt (tool_fetcher rt) owner repo (field "number" entry)
                  (h ++ [EvGet (listing_request (tool_fetcher rt) owner repo "open" 30)
                           (remote rt h
                              (listing_request (tool_fetcher rt) owner repo "open" 30))]))
        as (d' & es' & k & Hrun & Hk & _ & Hreq & Hlen & _).
      rewrite Hdet in Hrun. injection Hrun as <- <-.
      split; [lia|]. exists (field "number" entry). exact Hreq. }
  destruct Hmain as (rest & Heq & Hlen & number & Hrest).
  exists rest. split; [exact Heq|]. split; [reflexivity|]. split; [reflexivity|].
  split; [exact Hlen|]. split; [exists number; exact Hrest|].
  rewrite Heq. constructor; [split; reflexivity|].
  eapply Forall_impl; [|exact Hrest].
  intros rq (_ & Hh & _ & Ht). split; assumption.
Qed.

(** The coordinator always makes a first GET call: the one of the default
    strategy. *)
Lemma coordinator_first_get self owner repo pr_number h :
  requests_of (snd (GitHubPRFetcher.fetch_pr_details rt self owner repo pr_number h)) <> [].
Proof.
  rewrite (fetch_pr_details_unfold rt). unfold GitHubPRFetcher.strategies.
  cbn [GitHubPRFetcher.run_strategies]. unfold bind at 1.
  rewrite (attempt_run rt). cbn [GitHubPRFetcher.strategy_call].
  rewrite (_fetch_with_default_ssl_run rt).
  destruct (truthy _).
  - unfold ret. simpl. discriminate.
  - match goal with
    | |- context [let '(r, es') := ?m in _] => destruct m
    end.
    simpl. discriminate.
Qed.

(** X6.  [get_specified_pr] makes between one and five GET calls.  The first
    is the listing call: open pull requests, 30 per page, sorted by update
    time, newest first, with certificate verification switched off.  When
    the listing succeeds and the lookup [data[pr_number - 1]] selects an
    entry, between one and four calls follow, every one of them to the
    details URL of the ['number'] of that selected entry; and calls follow
    the listing call only in that case.  Every call has a 30 second timeout
    and the headers of the fetcher. *)
Theorem get_specified_pr_requests owner repo pr_number h :
  exists rest,
    requests_of (snd (get_specified_pr rt owner repo pr_number h))
      = listing_request (tool_fetcher rt) owner repo "open" 30 :: rest /\
    rq_verify (listing_request (tool_fetcher rt) owner repo "open" 30) = VerifyFalse /\
    rq_params (listing_request (tool_fetcher rt) owner repo "open" 30)
      = [("state", VStr "open"); ("per_page", VInt 30);
         ("sort", VStr "updated"); ("direction", VStr "desc")]%string /\
    (length rest <= 4)%nat /\
    (forall pr_list es1 data entry,
       GitHubPRFetcher.list_pull_requests rt (tool_fetcher rt) owner repo "open" 30 h
         = (Return pr_list, es1) ->
       truthy (dict_get "success" pr_list VNone) = true ->
       dict_get "data" pr_list VNone = VList data ->
       list_index data (pr_number - 1) = Return entry ->
       (1 <= length rest)%nat /\
       Forall (details_request (tool_fetcher rt)
                 (details_url rt (tool_fetcher rt) owner repo (field "number" entry))) rest) /\
    (rest <> [] ->
     exists pr_list es1 data entry,
       GitHubPRFetcher.list_pull_requests rt (tool_fetcher rt) owner repo "open" 30 h
         = (Return pr_list, es1) /\
       truthy (dict_get "success" pr_list VNone) = true /\
       dict_get "data" pr_list VNone = VList data /\
       list_index data (pr_number - 1) = Return entry) /\
    Forall (fun rq => rq_headers rq = GitHubPRFetcher.headers (tool_fetcher rt) /\
                      rq_timeout rq = Some 30)
           (requests_of (snd (get_specified_pr rt owner repo pr_number h))).
Proof.
  destruct (specified_pr_requests owner repo pr_number h)
    as (rest & Heq & Hverify & Hparams & Hlen & _ & Hall).
  exists rest.
  split; [exact Heq|]. split; [exact Hverify|]. split; [exact Hparams|].
  split; [exact Hlen|]. split; [|split; [|exact Hall]].
  - intros pr_list es1 data entry Hlist Hok Hdata Hindex.
    destruct (listed_projected rt _ _ _ _ _ _ Hlist Hok Hdata) as [Hproj _].
    assert (Hne : data <> []).
    { intros ->. apply list_index_In in Hindex. destruct Hindex. }
    rewrite (get_specified_pr_listed rt owner repo pr_number h data Hproj Hne) in Heq.
    cbv zeta in Heq. rewrite Hindex in Heq.
    pose proof (coordinator_first_get (tool_fetcher rt) owner repo (field "number" entry)
                  (h ++ [EvGet (listing_request (tool_fetcher rt) owner repo "open" 30)
                           (remote rt h
                              (listing_request (tool_fetcher rt) owner repo "open" 30))]))
      as Hfirst.
    destruct (coordinator_trace rt (tool_fetcher rt) owner repo (field "number" entry)
                (h ++ [EvGet (listing_request (tool_fetcher rt) owner repo "open" 30)
                         (remote rt h
                            (listing_request (tool_fetcher rt) owner repo "open" 30))]))
      as (d' & es' & k & Hrun & _ & _ & Hreq & _).
    rewrite Hrun in Heq, Hfirst. simpl in Heq, Hfirst.
    unfold requests_of in Heq. simpl in Heq. injection Heq as Hrest.
    fold (requests_of es') in Hrest. subst rest.
    split; [|exact Hreq].
    destruct (requests_of es'); [contradiction|simpl; lia].
  - intros Hrest.
    pose proof (fetcher_list_pull_requests_run rt (tool_fetcher rt) owner repo "open" 30 h)
      as Hlist.
    destruct (projected Requests GitHubPRFetcher.summary
                (remote rt h (listing_request (tool_fetcher rt) owner repo "open" 30)))
      as [data|e0] eqn:Hproj.
    + destruct data as [|first others].
      * rewrite (get_specified_pr_not_listed rt owner repo pr_number h _ _ Hlist) in Heq
          by (right; reflexivity).
        unfold requests_of in Heq. simpl in Heq. injection Heq as <-. contradiction.
      * rewrite (get_specified_pr_listed rt owner repo pr_number h _ Hproj) in Heq
          by discriminate.
        cbv zeta in Heq.
        destruct (list_index (first :: others) (pr_number - 1)) as [entry|e1] eqn:Hindex.
        -- do 4 eexists. split; [exact Hlist|]. split; [reflexivity|].
           split; [reflexivity|exact Hindex].
        -- unfold requests_of in Heq. simpl in Heq. injection Heq as <-. contradiction.
    + rewrite (get_specified_pr_not_listed rt owner repo pr_number h _ _ Hlist) in Heq
        by (left; reflexivity).
      unfold requests_of in Heq. simpl in Heq. injection Heq as <-. contradiction.
Qed.

(** X7.  Every GET call of [get_specified_pr] carries the fixed [Accept]
    and [User-Agent] headers, and an [Authorization] header exactly when the
    environment variable GITHUB_TOKEN is set to a non-empty string, its
    value being ["token "] followed by that string. *)
Theorem get_specified_pr_authorization owner repo pr_number h :
  Forall (fun rq =>
            header "Accept" (rq_headers rq) = Some "application/vnd.github.v3+json"%string /\
            header "User-Agent" (rq_headers rq) = Some "GitHub-PR-Fetcher/1.0"%string /\
            header "Authorization" (rq_headers rq) =
              match getenv_GITHUB_TOKEN rt with
              | Some token =>
                  if String.eqb token EmptyString then None else Some ("token " +++ token)
              | None => None
              end)
         (requests_of (snd (get_specified_pr rt owner repo pr_number h))).
Proof.
  destruct (specified_pr_requests owner repo pr_number h) as (_ & _ & _ & _ & _ & _ & Hall).
  eapply Forall_impl; [|exact Hall].
  intros rq [-> _]. unfold tool_fetcher, GitHubPRFetcher.__init__.
  destruct (getenv_GITHUB_TOKEN rt) as [token|]; simpl.
  - destruct (String.eqb token EmptyString); simpl; repeat split.
  - repeat split.
Qed.

End SpecifiedPRCases.

(** ** The single-call tools *)

Section SimpleTools.
Variable rt : runtime.

Lemma readme_loop_requests owner repo branch names : forall h,
  Forall (fun rq => rq_headers rq = [] /\ rq_verify rq = VerifyDefault)
         (requests_of (snd (readme_loop rt owner repo branch names h))).
Proof.
  induction names as [|filename rest IH]; intros h.
  - constructor.
  - rewrite readme_loop_cons. cbv zeta.
    specialize (IH (h ++ [EvGet (readme_request owner repo branch filename)
                            (remote rt h (readme_request owner repo branch filename))])).
    destruct (readme_loop rt owner repo branch rest _) as [r' es].
    destruct (remote rt h _) as [r|e].
    + destruct (status_code r =? 200); repeat constructor. exact IH.
    + destruct (is_RequestException e); repeat constructor. exact IH.
Qed.

(** X8.  The tools [list_pull_requests], [get_repository_issues],
    [get_repository_readme] and [get_repository_file] send no header of
    their own, so the token of the environment never leaves with them,
    and they never change the certificate verification of their client. *)
Theorem simple_tools_send_no_credentials owner repo state per_page branch file_path h :
  Forall (fun rq => rq_headers rq = [] /\ rq_verify rq = VerifyDefault)
         (requests_of (snd (list_pull_requests rt repo owner h))) /\
  Forall (fun rq => rq_headers rq = [] /\ rq_verify rq = VerifyDefault)
         (requests_of (snd (get_repository_issues rt owner repo state per_page h))) /\
  Forall (fun rq => rq_headers rq = [] /\ rq_verify rq = VerifyDefault)
         (requests_of (snd (get_repository_readme rt owner repo branch h))) /\
  Forall (fun rq => rq_headers rq = [] /\ rq_verify rq = VerifyDefault)
         (requests_of (snd (get_repository_file rt owner repo file_path branch h))).
Proof.
  rewrite list_pull_requests_run, get_repository_issues_run.
  destruct (get_repository_file_returns rt owner repo file_path branch h) as (v & ->).
  repeat split.
  - destruct (projected Httpx pr_entry _); repeat constructor.
  - repeat constructor.
  - apply readme_loop_requests.
  - repeat constructor.
Qed.

(** X9.  [get_repository_issues] makes exactly one GET call, whose
    [per_page] parameter is the requested page size capped at 100: never
    more than 100, and the requested size itself when that is at most 100
    (a size of zero or below is passed on as it is). *)
Theorem get_repository_issues_per_page owner repo state per_page h :
  exists rq n,
    requests_of (snd (get_repository_issues rt owner repo state per_page h)) = [rq] /\
    rq_params rq = [("state", VStr state); ("per_page", VInt n)]%string /\
    n <= 100 /\
    (per_page <= 100 -> n = per_page) /\
    (100 <= per_page -> n = 100).
Proof.
  rewrite get_repository_issues_run.
  exists (issues_request owner repo state per_page), (Z.min per_page 100).
  split; [reflexivity|]. split; [reflexivity|]. lia.
Qed.

(** X10.  What [get_repository_issues] gives back.  An answer whose status
    is neither 4xx nor 5xx and whose body decodes is returned as its JSON
    value, unchanged.  A 4xx or 5xx answer, and a call that fails with a
    [requests.RequestException], give the dict [{"error": "Failed to fetch
    issues: ..."}] with the text of the exception.  An exception of the call
    that is no [RequestException] is not caught: the tool raises it. *)
Theorem get_repository_issues_result owner repo state per_page h :
  (forall r issues,
     remote rt h (issues_request owner repo state per_page) = Responded r ->
     ~ (400 <= status_code r < 600) ->
     json_body r = Some issues ->
     fst (get_repository_issues rt owner repo state per_page h) = Return issues) /\
  (forall r,
     remote rt h (issues_request owner repo state per_page) = Responded r ->
     400 <= status_code r < 600 ->
     fst (get_repository_issues rt owner repo state per_page h) =
     Return (VDict [("error", VStr ("Failed to fetch issues: "
                                    +++ str_exn rt (HTTPError Requests r)))]%string)) /\
  (forall e,
     remote rt h (issues_request owner repo state per_page) = Failed e ->
     is_RequestException e = true ->
     fst (get_repository_issues rt owner repo state per_page h) =
     Return (VDict [("error", VStr ("Failed to fetch issues: " +++ str_exn rt e))]%string)) /\
  (forall e,
     remote rt h (issues_request owner repo state per_page) = Failed e ->
     is_RequestException e = false ->
     fst (get_repository_issues rt owner repo state per_page h) = Raise e).
Proof.
  rewrite get_repository_issues_run. simpl. repeat split.
  - intros r issues -> Hstatus Hjson. unfold fetched.
    replace ((400 <=? status_code r) && (status_code r <? 600)) with false.
    + rewrite Hjson. reflexivity.
    + symmetry. apply andb_false_iff.
      destruct (Z_lt_ge_dec (status_code r) 400);
        [left; apply Z.leb_gt|right; apply Z.ltb_ge]; lia.
  - intros r -> Hstatus. unfold fetched.
    replace ((400 <=? status_code r) && (status_code r <? 600)) with true
      by (symmetry; apply andb_true_iff; split; [apply Z.leb_le|apply Z.ltb_lt]; lia).
    reflexivity.
  - intros e -> He. simpl. rewrite He. reflexivity.
  - intros e -> He. simpl. rewrite He. reflexivity.
Qed.

End SimpleTools.

(** ** Listings are all or nothing *)

Section AllOrNothing.
Variable rt : runtime.

Lemma pr_entry_raises pr :
  is_pull_request pr = false -> exists e, pr_entry pr = Raise e.
Proof.
  unfold is_pull_request, pr_entry.
  destruct pr as [| | | | | |d]; simpl; eauto.
  destruct (dict_lookup "number" d); simpl; eauto.
  destruct (dict_lookup "title" d); simpl; eauto.
  destruct (dict_lookup "state" d); simpl; eauto.
  destruct (dict_lookup "user" d) as [[| | | | | |user]|]; simpl; eauto.
  destruct (dict_lookup "login" user); simpl.
  - destruct (dict_lookup "html_url" d); simpl; [discriminate|eauto].
  - eauto.
Qed.

Lemma summary_seven_fields pr :
  is_dated_pull_request pr = true -> GitHubPRFetcher.summary pr = Return (seven_fields pr).
Proof.
  unfold is_dated_pull_request, is_pull_request, GitHubPRFetcher.summary, seven_fields,
    field, dict_get.
  destruct pr as [| | | | | |d]; try discriminate. simpl.
  destruct (dict_lookup "number" d); [|discriminate].
  destruct (dict_lookup "title" d); [|discriminate].
  destruct (dict_lookup "state" d); [|discriminate].
  destruct (dict_lookup "user" d) as [[| | | | | |user]|]; try discriminate.
  destruct (dict_lookup "html_url" d); [|discriminate]. simpl.
  destruct (dict_lookup "login" user); [|discriminate]. simpl.
  destruct (dict_lookup "created_at" d); [|discriminate].
  destruct (dict_lookup "updated_at" d); [|discriminate].
  reflexivity.
Qed.

Lemma summary_raises pr :
  is_dated_pull_request pr = false -> exists e, GitHubPRFetcher.summary pr = Raise e.
Proof.
  unfold is_dated_pull_request, is_pull_request, GitHubPRFetcher.summary.
  destruct pr as [| | | | | |d]; simpl; eauto.
  destruct (dict_lookup "number" d); simpl; eauto.
  destruct (dict_lookup "title" d); simpl; eauto.
  destruct (dict_lookup "state" d); simpl; eauto.
  destruct (dict_lookup "user" d) as [[| | | | | |user]|]; simpl; eauto.
  destruct (dict_lookup "login" user); simpl; eauto.
  destruct (dict_lookup "html_url" d); simpl; eauto.
  destruct (dict_lookup "created_at" d); simpl; eauto.
  destruct (dict_lookup "updated_at" d); simpl; [discriminate|eauto].
Qed.

Lemma map_result_all {A B} (f : A -> result B) (g : A -> B) l :
  Forall (fun x => f x = Return (g x)) l -> map_result f l = Return (map g l).
Proof.
  induction 1 as [|x l Hx _ IH]; simpl; [reflexivity|].
  rewrite Hx, IH. reflexivity.
Qed.

(** One item that raises spoils the whole list. *)
Lemma map_result_raises {A B} (f : A -> result B) l :
  Exists (fun x => exists e, f x = Raise e) l -> exists e, map_result f l = Raise e.
Proof.
  induction l as [|x l IH]; intros Hex.
  - inversion Hex.
  - simpl. destruct (f x) as [y|e] eqn:Hx; simpl; [|eauto].
    inversion Hex as [? ? (e & He)|? ? Hrest]; subst; [congruence|].
    destruct (IH Hrest) as (e & ->). simpl. eauto.
Qed.

Lemma not_4xx_5xx r :
  ~ (400 <= status_code r < 600) ->
  (400 <=? status_code r) && (status_code r <? 600) = false.
Proof.
  intros H. apply andb_false_iff.
  destruct (Z_lt_ge_dec (status_code r) 400);
    [left; apply Z.leb_gt|right; apply Z.ltb_ge]; lia.
Qed.

(** X11.  [GitHubPRFetcher.list_pull_requests] on an answer that is
    neither 4xx nor 5xx and whose body is a JSON array.  When every item is
    a pull request object with its two timestamps, the result is a success
    whose ['data'] holds, in the order of the answer, one dict per item with
    exactly the seven keys number, title, state, author, url, created_at,
    updated_at.  When one item lacks one of the fields read, the result is
    the failure dict with ['data'] [None]: no partial list is returned. *)
Theorem fetcher_list_pull_requests_all_or_nothing self owner repo state per_page h r prs :
  remote rt h (listing_request self owner repo state per_page) = Responded r ->
  ~ (400 <= status_code r < 600) ->
  json_body r = Some (VList prs) ->
  (Forall (fun pr => is_dated_pull_request pr = true) prs ->
   fst (GitHubPRFetcher.list_pull_requests rt self owner repo state per_page h) =
   Return [("success", VBool true); ("data", VList (map seven_fields prs))]%string) /\
  (Exists (fun pr => is_dated_pull_request pr = false) prs ->
   exists msg,
     fst (GitHubPRFetcher.list_pull_requests rt self owner repo state per_page h) =
     Return [("success", VBool false);
             ("error", VStr ("Failed to list pull requests: " +++ msg));
             ("data", VNone)]%string).
Proof.
  intros Hremote Hstatus Hjson.
  rewrite fetcher_list_pull_requests_run, Hremote. unfold projected, fetched.
  rewrite (not_4xx_5xx _ Hstatus), Hjson. simpl. split.
  - intros Hall.
    rewrite (map_result_all GitHubPRFetcher.summary seven_fields); [reflexivity|].
    eapply Forall_impl; [|exact Hall]. intros pr. apply summary_seven_fields.
  - intros Hex.
    destruct (map_result_raises GitHubPRFetcher.summary prs) as (e & ->).
    + eapply Exists_impl; [|exact Hex]. intros pr. apply summary_raises.
    + eauto.
Qed.

(** X12.  The tool [list_pull_requests] never returns part of a listing.
    When the answer is a 2xx JSON array in which one item lacks a field the
    tool reads, and when the GET call itself fails, the tool returns the
    string ["Error: "] followed by the text of the exception, after writing
    the one line ["There was an error in the code: ..."] with the same text
    to standard error. *)
Theorem list_pull_requests_error repo owner h :
  (forall r prs,
     remote rt h (pulls_request repo owner) = Responded r ->
     200 <= status_code r <= 299 ->
     json_body r = Some (VList prs) ->
     Exists (fun pr => is_pull_request pr = false) prs ->
     exists e,
       list_pull_requests rt repo owner h =
       (Return ("Error: " +++ str_exn rt e),
        [EvGet (pulls_request repo owner) (Responded r);
         EvStderr ("There was an error in the code: " +++ str_exn rt e)])) /\
  (forall e,
     remote rt h (pulls_request repo owner) = Failed e ->
     list_pull_requests rt repo owner h =
     (Return ("Error: " +++ str_exn rt e),
      [EvGet (pulls_request repo owner) (Failed e);
       EvStderr ("There was an error in the code: " +++ str_exn rt e)])).
Proof.
  split.
  - intros r prs Hremote Hstatus Hjson Hex.
    rewrite list_pull_requests_run, Hremote. unfold projected, fetched.
    replace ((200 <=? status_code r) && (status_code r <=? 299)) with true
      by (symmetry; apply andb_true_iff; split; apply Z.leb_le; lia).
    simpl. rewrite Hjson. simpl.
    destruct (map_result_raises pr_entry prs) as (e & ->).
    + eapply Exists_impl; [|exact Hex]. intros pr. apply pr_entry_raises.
    + eauto.
  - intros e Hremote. rewrite list_pull_requests_run, Hremote. reflexivity.
Qed.

End AllOrNothing.

(** ** Every run of the README lookup *)

Section ReadmeCases.
Variable rt : runtime.

Lemma readme_loop_cases owner repo branch names : forall h r es,
  readme_loop rt owner repo branch names h = (r, es) ->
  exists pre es_pre,
    misses_in_turn rt owner repo branch pre h es_pre /\
    ((exists filename post resp,
        names = pre ++ filename :: post /\
        remote rt (h ++ es_pre) (readme_request owner repo branch filename) = Responded resp /\
        status_code resp = 200 /\
        r = Return (Some (text resp)) /\
        es = es_pre ++ [EvGet (readme_request owner repo branch filename) (Responded resp)]) \/
     (names = pre /\ r = Return None /\ es = es_pre) \/
     (exists filename post e,
        names = pre ++ filename :: post /\
        remote rt (h ++ es_pre) (readme_request owner repo branch filename) = Failed e /\
        is_RequestException e = false /\
        r = Raise e /\
        es = es_pre ++ [EvGet (readme_request owner repo branch filename) (Failed e)])).
Proof.
  induction names as [|filename rest IH]; intros h r es Hrun.
  - simpl in Hrun. unfold ret in Hrun. injection Hrun as <- <-.
    exists [], []. split; [constructor|]. right. left. repeat split.
  - rewrite readme_loop_cons in Hrun. cbv zeta in Hrun.
    set (rq := readme_request owner repo branch filename) in *.
    assert (Hnext : forall r' es',
              readme_miss (remote rt h rq) = true ->
              readme_loop rt owner repo branch rest (h ++ [EvGet rq (remote rt h rq)])
                = (r', es') ->
              r = r' -> es = EvGet rq (remote rt h rq) :: es' ->
              exists pre es_pre,
                misses_in_turn rt owner repo branch pre h es_pre /\
                ((exists filename0 post resp,
                    filename :: rest = pre ++ filename0 :: post /\
                    remote rt (h ++ es_pre) (readme_request owner repo branch filename0)
                      = Responded resp /\
                    status_code resp = 200 /\
                    r = Return (Some (text resp)) /\
                    es = es_pre ++ [EvGet (readme_request owner repo branch filename0)
                                      (Responded resp)]) \/
                 (filename :: rest = pre /\ r = Return None /\ es = es_pre) \/
                 (exists filename0 post e,
                    filename :: rest = pre ++ filename0 :: post /\
                    remote rt (h ++ es_pre) (readme_request owner repo branch filename0)
                      = Failed e /\
                    is_RequestException e = false /\
                    r = Raise e /\
                    es = es_pre ++ [EvGet (readme_request owner repo branch filename0)
                                      (Failed e)]))).
    { intros r' es' Hmiss Hrest -> ->.
      destruct (IH _ _ _ Hrest) as (pre & es_pre & Hpre & Hcases).
      exists (filename :: pre), (EvGet rq (remote rt h rq) :: es_pre).
      split; [constructor; assumption|].
      destruct Hcases as [(f & post & resp & -> & Hr & Hs & -> & ->)
                         |[(-> & -> & ->)|(f & post & e & -> & Hr & He & -> & ->)]].
      - left. exists f, post, resp.
        rewrite <- app_assoc in Hr. repeat split; assumption.
      - right. left. repeat split.
      - right. right. exists f, post, e.
        rewrite <- app_assoc in Hr. repeat split; assumption. }
    destruct (readme_loop rt owner repo branch rest (h ++ [EvGet rq (remote rt h rq)]))
      as [r' es'] eqn:Hrest.
    destruct (remote rt h rq) as [resp|e] eqn:Hremote.
    + destruct (status_code resp =? 200) eqn:Hstatus.
      * injection Hrun as <- <-. apply Z.eqb_eq in Hstatus.
        exists [], []. split; [constructor|]. left.
        exists filename, rest, resp. rewrite app_nil_r. repeat split; assumption.
      * injection Hrun as <- <-.
        apply (Hnext r' es'); try reflexivity. simpl. rewrite Hstatus. reflexivity.
    + destruct (is_RequestException e) eqn:He.
      * injection Hrun as <- <-. apply (Hnext r' es'); try reflexivity. exact He.
      * injection Hrun as <- <-.
        exists [], []. split; [constructor|]. right. right.
        exists filename, rest, e. rewrite app_nil_r. repeat split; assumption.
Qed.

(** X13.  Every run of [get_repository_readme] is one of three.  It returns
    a text: that text is the body of the last GET call, which was answered
    with status 200, and every call before it was a miss.  It returns
    [None]: all four filenames were fetched and all were misses.  It
    raises: the last GET call raised an exception that is no
    [requests.RequestException], and that exception is the one raised. *)
Theorem get_repository_readme_cases owner repo branch h r es :
  get_repository_readme rt owner repo branch h = (r, es) ->
  exists pre es_pre,
    misses_in_turn rt owner repo branch pre h es_pre /\
    ((exists filename post resp,
        filenames = pre ++ filename :: post /\
        remote rt (h ++ es_pre) (readme_request owner repo branch filename) = Responded resp /\
        status_code resp = 200 /\
        r = Return (Some (text resp)) /\
        es = es_pre ++ [EvGet (readme_request owner repo branch filename) (Responded resp)]) \/
     (filenames = pre /\ r = Return None /\ es = es_pre) \/
     (exists filename post e,
        filenames = pre ++ filename :: post /\
        remote rt (h ++ es_pre) (readme_request owner repo branch filename) = Failed e /\
        is_RequestException e = false /\
        r = Raise e /\
        es = es_pre ++ [EvGet (readme_request owner repo branch filename) (Failed e)])).
Proof. apply readme_loop_cases. Qed.

End ReadmeCases.


(** ** The further properties on the concrete runtime *)

(** Pull request 12 of [octocat/Hello-World]: the payload is the body of the
    second GET call, made with verification off. *)
Lemma fetch_pr_details_payload_witness :
  exists es' rq r data,
    snd (GitHubPRFetcher.fetch_pr_details Scenario.rt Example.self
           "octocat" "Hello-World" (VInt 12) []) = es' ++ [EvGet rq (Responded r)] /\
    details_request Example.self Example.url12 rq /\
    json_body r = Some data /\
    ~ (400 <= status_code r < 600) /\
    [("success", VBool true); ("data", Scenario.detail 12);
     ("method", VStr "disabled_ssl_verification")]%string
    = [("success", VBool true); ("data", data); ("method", VStr (method_of rq))]%string.
Proof.
  refine (fetch_pr_details_payload Scenario.rt Example.self "octocat" "Hello-World" (VInt 12) []
            [("success", VBool true); ("data", Scenario.detail 12);
             ("method", VStr "disabled_ssl_verification")]%string
            (snd (GitHubPRFetcher.fetch_pr_details Scenario.rt Example.self
                    "octocat" "Hello-World" (VInt 12) []))
            _ eq_refl).
  vm_compute. reflexivity.
Defined.

(** [pr_number = -1] on the two entries of [octocat/Hello-World]: the entry
    at position 0, pull request 12. *)
Lemma get_specified_pr_counts_from_end_witness :
  exists entry det es2,
    nth_error Example.data (Z.to_nat (Z.of_nat (length Example.data) + -1 - 1)) = Some entry /\
    GitHubPRFetcher.fetch_pr_details Scenario.rt (tool_fetcher Scenario.rt)
      "octocat" "Hello-World" (field "number" entry) ([] ++ [Example.listed])
      = (Return det, es2) /\
    get_specified_pr Scenario.rt "octocat" "Hello-World" (-1) []
      = (Return (specified_pr_result det Example.data), [Example.listed] ++ es2).
Proof.
  refine (get_specified_pr_counts_from_end Scenario.rt "octocat" "Hello-World" (-1) []
            [("success", VBool true); ("data", VList Example.data)]%string
            [Example.listed] Example.data eq_refl eq_refl eq_refl _).
  simpl. lia.
Defined.

(** [pr_number = 2] on [octocat/Hello-World]: after the listing call come
    two calls, both to the details URL of pull request 7, the number of the
    second entry of the listing. *)
Lemma get_specified_pr_requests_witness :
  map rq_url (requests_of (snd (get_specified_pr Scenario.rt "octocat" "Hello-World" 2 [])))
    = ["https://api.github.com/repos/octocat/Hello-World/pulls";
       "https://api.github.com/repos/octocat/Hello-World/pulls/7";
       "https://api.github.com/repos/octocat/Hello-World/pulls/7"]%string /\
  Forall (details_request (tool_fetcher Scenario.rt)
            (details_url Scenario.rt (tool_fetcher Scenario.rt) "octocat" "Hello-World"
               (VInt 7)))
         (tl (requests_of (snd (get_specified_pr Scenario.rt "octocat" "Hello-World" 2 [])))).
Proof.
  split; [vm_compute; reflexivity|].
  destruct (get_specified_pr_requests Scenario.rt "octocat" "Hello-World" 2 [])
    as (rest & Heq & _ & _ & _ & Hsel & _).
  rewrite Heq. simpl tl.
  exact (proj2 (Hsel [("success", VBool true); ("data", VList Example.data)]%string
                  [Example.listed] Example.data (Example.entry 7 "Fix typo" "bob")
                  eq_refl eq_refl eq_refl eq_refl)).
Defined.

(** The first entry of [octocat/Hello-World]: the success with four keys. *)
Lemma get_specified_pr_result_shape_witness :
  (exists msg,
     [("success", VBool true); ("latest_pr", Scenario.detail 12);
      ("method_used", VStr "disabled_ssl_verification");
      ("all_prs", VList Example.data)]%string
     = [("success", VBool false);
        ("error", VStr ("Failed to list pull requests: " +++ msg));
        ("data", VNone)]%string) \/
  [("success", VBool true); ("latest_pr", Scenario.detail 12);
   ("method_used", VStr "disabled_ssl_verification");
   ("all_prs", VList Example.data)]%string
  = [("success", VBool true); ("data", VList [])]%string \/
  (exists latest_pr method data,
     [("success", VBool true); ("latest_pr", Scenario.detail 12);
      ("method_used", VStr "disabled_ssl_verification");
      ("all_prs", VList Example.data)]%string
     = [("success", VBool true); ("latest_pr", latest_pr);
        ("method_used", VStr method); ("all_prs", VList data)]%string /\
     In method method_names /\ data <> []) \/
  (exists msg,
     [("success", VBool true); ("latest_pr", Scenario.detail 12);
      ("method_used", VStr "disabled_ssl_verification");
      ("all_prs", VList Example.data)]%string
     = [("success", VBool false);
        ("error", VStr ("All SSL strategies failed. Last error: " +++ msg));
        ("data", VNone)]%string).
Proof.
  refine (get_specified_pr_result_shape Scenario.rt "octocat" "Hello-World" 1 []
            [("success", VBool true); ("latest_pr", Scenario.detail 12);
             ("method_used", VStr "disabled_ssl_verification");
             ("all_prs", VList Example.data)]%string
            (snd (get_specified_pr Scenario.rt "octocat" "Hello-World" 1 [])) _).
  vm_compute. reflexivity.
Defined.

(** The issues of [octocat/Hello-World] cannot be reached: the error dict. *)
Lemma get_repository_issues_result_witness :
  fst (get_repository_issues Scenario.rt "octocat" "Hello-World" "open" 300 []) =
  Return (VDict [("error", VStr "Failed to fetch issues: connection refused")]%string).
Proof.
  destruct (get_repository_issues_result Scenario.rt "octocat" "Hello-World" "open" 300 [])
    as (_ & _ & Hfailed & _).
  exact (Hfailed (TransportError Requests "connection refused") eq_refl eq_refl).
Defined.

(** The listing of [octocat/Hello-World]: two dicts of seven fields. *)
Lemma fetcher_list_pull_requests_all_or_nothing_witness :
  fst (GitHubPRFetcher.list_pull_requests Scenario.rt Example.self
         "octocat" "Hello-World" "open" 30 []) =
  Return [("success", VBool true); ("data", VList Example.data)]%string.
Proof.
  refine (proj1 (fetcher_list_pull_requests_all_or_nothing Scenario.rt Example.self
                   "octocat" "Hello-World" "open" 30 []
                   (mkResponse 200 "[...]" (Some (VList Scenario.listing)))
                   Scenario.listing eq_refl _ eq_refl) _).
  - simpl. lia.
  - repeat constructor.
Defined.

(** The truncated listing: the second item has no title, and the answer is
    an error string, not the first pull request alone. *)
Lemma list_pull_requests_error_witness :
  exists e,
    list_pull_requests truncated_rt "Hello-World" "octocat" [] =
    (Return ("Error: " +++ str_exn truncated_rt e),
     [EvGet (pulls_request "Hello-World" "octocat")
        (Scenario.ok "[...]" (Some (VList truncated_listing)));
      EvStderr ("There was an error in the code: " +++ str_exn truncated_rt e)]).
Proof.
  destruct (list_pull_requests_error truncated_rt "Hello-World" "octocat" []) as (Hitem & _).
  refine (Hitem (mkResponse 200 "[...]" (Some (VList truncated_listing))) truncated_listing
            eq_refl _ eq_refl _).
  - simpl. lia.
  - apply Exists_cons_tl. apply Exists_cons_hd. reflexivity.
Defined.

(** The README of [octocat/Hello-World]: one miss, then the hit. *)
Lemma get_repository_readme_cases_witness :
  exists pre es_pre,
    misses_in_turn Scenario.rt "octocat" "Hello-World" "main" pre [] es_pre /\
    ((exists filename post resp,
        filenames = pre ++ filename :: post /\
        remote Scenario.rt ([] ++ es_pre)
          (readme_request "octocat" "Hello-World" "main" filename) = Responded resp /\
        status_code resp = 200 /\
        Return (Some "Hello World!"%string) = Return (Some (text resp)) /\
        snd (get_repository_readme Scenario.rt "octocat" "Hello-World" "main" [])
          = es_pre ++ [EvGet (readme_request "octocat" "Hello-World" "main" filename)
                         (Responded resp)]) \/
     (filenames = pre /\ Return (Some "Hello World!"%string) = @Return (option string) None /\
      snd (get_repository_readme Scenario.rt "octocat" "Hello-World" "main" []) = es_pre) \/
     (exists filename post e,
        filenames = pre ++ filename :: post /\
        remote Scenario.rt ([] ++ es_pre)
          (readme_request "octocat" "Hello-World" "main" filename) = Failed e /\
        is_RequestException e = false /\
        Return (Some "Hello World!"%string) = Raise e /\
        snd (get_repository_readme Scenario.rt "octocat" "Hello-World" "main" [])
          = es_pre ++ [EvGet (readme_request "octocat" "Hello-World" "main" filename)
                         (Failed e)])).
Proof.
  refine (get_repository_readme_cases Scenario.rt "octocat" "Hello-World" "main" []
            (Return (Some "Hello World!"%string))
            (snd (get_repository_readme Scenario.rt "octocat" "Hello-World" "main" [])) _).
  vm_compute. reflexivity.
Defined.
